(** * The swap nursery of the RSK chain

    A shallow embedding of [src/lib/swap/LiquidNursery.ts] (class
    [RskNursery]) and of [src/lib/db/ReverseSwapRepository.ts].

    Conventions of the embedding.
    - The two tables are lists of rows.  [findAll] is a filter, [findOne]
      the first row that satisfies the [where] options, and the options
      themselves are decidable predicates on a row.
    - An instance method [update] sets the given keys on the instance it
      is called on and saves it.  Both the instance and the row of the
      same primary key are visible below, because a handler may hold an
      instance that is older than the row: when the call changes nothing
      on the instance, no query is sent and the row keeps what it has.
    - Asynchronous code is written in a state and rejection monad
      ([Promise]); [await] is its bind.
    - ethers' [BigNumber] is read as [Z]: [mul] and [gt] are exact, [div]
      truncates and throws on a zero divisor, [toNumber] throws outside
      the 53 bits of a safe number, and [BigNumber.from] throws on a
      number that has a fractional part or is not safe.  The expected
      amount of a swap is a number of JavaScript, read as a fraction
      ([Q]); block heights and fees are integers.
    - Calls of the logger and of [console.log] are left out. *)

From Stdlib Require Import ZArith QArith_base.
From Stdlib.Strings Require Import Byte.
From stdpp Require Import base option list strings gmap.

Local Open Scope Z_scope.

(** ** Enumerations and plain data *)

(** The members of [SwapUpdateEvent] that the sources name.  [consts/Enums]
    is not in src; the strings are the ones of the lifecycle document and
    of the spec. *)
Module SwapUpdateEvent.
(** Modelled from the spec: [swap.created] of [consts/Enums]. *)
Definition SwapCreated : string := "swap.created".
(** Modelled from the spec: [swap.expired] of [consts/Enums]. *)
Definition SwapExpired : string := "swap.expired".
(** Modelled from the spec: [invoice.set] of [consts/Enums]. *)
Definition InvoiceSet : string := "invoice.set".
(** Modelled from the spec: [invoice.settled] of [consts/Enums]. *)
Definition InvoiceSettled : string := "invoice.settled".
(** Modelled from the spec: [transaction.failed] of [consts/Enums]. *)
Definition TransactionFailed : string := "transaction.failed".
(** Modelled from the spec: [transaction.mempool] of [consts/Enums]. *)
Definition TransactionMempool : string := "transaction.mempool".
(** Modelled from the spec: [transaction.confirmed] of [consts/Enums]. *)
Definition TransactionConfirmed : string := "transaction.confirmed".
(** Modelled from the spec: [transaction.refunded] of [consts/Enums]. *)
Definition TransactionRefunded : string := "transaction.refunded".
End SwapUpdateEvent.

(** Modelled from the spec: [CurrencyType] of [consts/Enums], which is not
    in src, with the members the sources name. *)
Inductive CurrencyType : Type := BitcoinLike | Ether | ERC20 | Rbtc.

#[global] Instance CurrencyType_eq_dec : EqDecision CurrencyType.
Proof. solve_decision. Defined.

Inductive OrderSide : Type := BUY | SELL.

#[global] Instance OrderSide_eq_dec : EqDecision OrderSide.
Proof. solve_decision. Defined.

Definition Buffer : Type := list byte.

(** How a promise settles. *)
Inductive Settled (A : Type) : Type :=
| Fulfilled (value : A)
| Rejected (reason : string).
Arguments Fulfilled {A} value.
Arguments Rejected {A} reason.

(** The values of a lockup event ([consts/Types] is not in src; these are
    the fields the handlers read). *)
Record EtherSwapValues : Type := {
  preimageHash : Buffer;
  amount : Z;
  claimAddress : string;
  timelock : Z;
}.

Record ERC20SwapValues : Type := {
  etherSwapValues_of :> EtherSwapValues;
  tokenAddress : string;
}.

(** The transaction handle of ethers: its hash and how [wait] settles. *)
Record ContractTransaction : Type := {
  hash : string;
  wait : Z → Settled unit;
}.

(** The arithmetic of ethers that the native handler uses. *)
Module BigNumber.
(** [MAX_SAFE] of ethers, [0x1fffffffffffff]. *)
Definition MAX_SAFE : Z := 2 ^ 53 - 1.

(** [BigNumber.from(value)] for a number: a fault when [value % 1] is not
    zero, a fault when the value is not strictly inside the safe range. *)
Definition from (value : Q) : Settled Z :=
  if decide (Qnum value mod Z.pos (Qden value) ≠ 0)
  then Rejected "underflow"
  else
    let integer := Qnum value / Z.pos (Qden value) in
    if decide (integer >= MAX_SAFE ∨ integer <= - MAX_SAFE)
    then Rejected "overflow"
    else Fulfilled integer.

(** [a.div(b)] *)
Definition div (a b : Z) : Settled Z :=
  if decide (b = 0) then Rejected "division-by-zero"
  else Fulfilled (a `quot` b).

(** [a.toNumber()]: a fault when [a] needs more than 53 bits. *)
Definition toNumber (a : Z) : Settled Z :=
  if decide (Z.abs a ≤ MAX_SAFE) then Fulfilled a else Rejected "overflow".
End BigNumber.

(** The methods of [ERC20WalletProvider] that the token handler calls.  The
    class is not in src; either conversion may throw. *)
Record ERC20WalletProvider : Type := {
  getTokenAddress : string;
  formatTokenAmount : Q → Settled Z;
  normalizeTokenAmount : Z → Settled Z;
}.

Module Wallet.
(** [walletProvider] is the provider as the cast
    [wallet.walletProvider as ERC20WalletProvider] sees it; the handler
    casts only wallets of type [ERC20]. *)
Record t : Type := {
  symbol : string;
  type : CurrencyType;
  walletProvider : ERC20WalletProvider;
}.
End Wallet.

Module Errors.
(** Modelled from the spec: [swap/Errors] is not in src.  The four
    rejection reasons of a lockup, each with the arguments the handler
    passes; an event carries the reason in place of its [message]. *)
Inductive t : Type :=
| INVALID_CLAIM_ADDRESS (claimAddress expected : string)
| INVALID_TIMELOCK (timelock expected : Z)
| INVALID_TOKEN_LOCKED (tokenAddress expected : string)
| INSUFFICIENT_AMOUNT (actual : Z) (expected : Q).
End Errors.

(** ** The two models *)

Module Swap.
(** Modelled from the spec: [db/models/Swap] is not in src.  The columns
    are the ones the handlers read and the spec's data model lists. *)
Record t : Type := {
  id : string;
  pair : string;
  orderSide : OrderSide;
  preimageHash : string;
  status : string;
  timeoutBlockHeight : Z;
  expectedAmount : option Q;
  lockupTransactionId : option string;
  minerFee : option Z;
}.

(** The object given to [update].  [None] is a key that is absent or
    whose value is [undefined]. *)
Record values : Type := {
  v_status : option string;
  v_lockupTransactionId : option string;
  v_minerFee : option Z;
}.

Definition set (row : t) (v : values) : t :=
  {| id := id row;
     pair := pair row;
     orderSide := orderSide row;
     preimageHash := preimageHash row;
     status := default (status row) (v_status v);
     timeoutBlockHeight := timeoutBlockHeight row;
     expectedAmount := expectedAmount row;
     lockupTransactionId :=
       from_option Some (lockupTransactionId row) (v_lockupTransactionId v);
     minerFee := from_option Some (minerFee row) (v_minerFee v) |}.
End Swap.

Module ReverseSwap.
Record t : Type := {
  id : string;
  pair : string;
  orderSide : OrderSide;
  preimageHash : string;
  status : string;
  timeoutBlockHeight : Z;
  transactionId : option string;
  transactionVout : option Z;
  minerFee : option Z;
  preimage : option string;
  failureReason : option string;
  rawTx : option string;
}.

(** The object given to [update].  Sequelize's [update] first drops every
    key whose value is [undefined]
    ([values = _.omitBy(values, value => value === undefined)]) and sets
    the others, so [None] stands for an absent key and for [undefined]
    alike. *)
Record values : Type := {
  v_status : option string;
  v_failureReason : option string;
  v_minerFee : option Z;
  v_transactionId : option string;
  v_transactionVout : option Z;
  v_preimage : option string;
  v_rawTx : option string;
}.

Definition set (row : t) (v : values) : t :=
  {| id := id row;
     pair := pair row;
     orderSide := orderSide row;
     preimageHash := preimageHash row;
     status := default (status row) (v_status v);
     timeoutBlockHeight := timeoutBlockHeight row;
     transactionId := from_option Some (transactionId row) (v_transactionId v);
     transactionVout :=
       from_option Some (transactionVout row) (v_transactionVout v);
     minerFee := from_option Some (minerFee row) (v_minerFee v);
     preimage := from_option Some (preimage row) (v_preimage v);
     failureReason :=
       from_option Some (failureReason row) (v_failureReason v);
     rawTx := from_option Some (rawTx row) (v_rawTx v) |}.

#[global] Instance t_eq_dec : EqDecision t.
Proof. solve_decision. Defined.
End ReverseSwap.

(** ** Events of the nursery *)

Inductive NurseryEvent : Type :=
| eth_lockup (swap : Swap.t) (transactionHash : string)
    (etherSwapValues : EtherSwapValues)
| erc20_lockup (swap : Swap.t) (transactionHash : string)
    (erc20SwapValues : ERC20SwapValues)
| swap_expired (swap : Swap.t) (isEtherSwap : bool)
| lockup_failed (swap : Swap.t) (reason : Errors.t)
| reverseSwap_expired (reverseSwap : ReverseSwap.t) (isEtherSwap : bool)
| lockup_failedToSend (reverseSwap : ReverseSwap.t) (reason : string)
| lockup_confirmed (reverseSwap : ReverseSwap.t) (transactionHash : string)
| claim (reverseSwap : ReverseSwap.t) (preimage : Buffer).

(** ** State and promises *)

(** What the handlers read and write: the two tables, the events emitted
    so far (oldest first) and the confirmation watchers that are attached
    and have not settled. *)
Record State : Type := {
  swaps : list Swap.t;
  reverseSwaps : list ReverseSwap.t;
  emitted : list NurseryEvent;
  watchers : list (ReverseSwap.t * ContractTransaction);
}.

Definition with_swaps (st : State) (rows : list Swap.t) : State :=
  {| swaps := rows; reverseSwaps := reverseSwaps st;
     emitted := emitted st; watchers := watchers st |}.

Definition with_reverseSwaps (st : State) (rows : list ReverseSwap.t) : State :=
  {| swaps := swaps st; reverseSwaps := rows;
     emitted := emitted st; watchers := watchers st |}.

Definition with_emitted (st : State) (events : list NurseryEvent) : State :=
  {| swaps := swaps st; reverseSwaps := reverseSwaps st;
     emitted := events; watchers := watchers st |}.

Definition with_watchers (st : State)
    (pending : list (ReverseSwap.t * ContractTransaction)) : State :=
  {| swaps := swaps st; reverseSwaps := reverseSwaps st;
     emitted := emitted st; watchers := pending |}.

Definition Promise (A : Type) : Type := State → Settled A * State.

Definition resolve {A} (value : A) : Promise A := λ st, (Fulfilled value, st).

Definition settled {A} (outcome : Settled A) : Promise A :=
  λ st, (outcome, st).

(** [await p] and [p.then(k)]: [k] runs when [p] is fulfilled, a rejection
    passes through. *)
Definition and_then {A B} (p : Promise A) (k : A → Promise B) : Promise B :=
  λ st, match p st with
        | (Fulfilled value, st') => k value st'
        | (Rejected reason, st') => (Rejected reason, st')
        end.

(** [p.catch(h)] and [try { p } catch (e) { h }]. *)
Definition catch {A} (p : Promise A) (h : string → Promise A) : Promise A :=
  λ st, match p st with
        | (Fulfilled value, st') => (Fulfilled value, st')
        | (Rejected reason, st') => h reason st'
        end.

Notation "'await' x ← p ; k" := (and_then p (λ x, k))
  (at level 10, x name, p at level 100, k at level 200,
   format "'[v' 'await'  x  ←  p ; '/' k ']'").

(** [for (const x of xs) { body }] *)
Fixpoint for_of {A} (xs : list A) (body : A → Promise unit) : Promise unit :=
  match xs with
  | [] => resolve tt
  | x :: rest => await _u ← body x; for_of rest body
  end.

Definition emit (event : NurseryEvent) : Promise unit :=
  λ st, (Fulfilled tt, with_emitted st (emitted st ++ [event])).

(** ** Repositories *)

(** [db/SwapRepository] is not in src; its two methods that the handlers
    call are modelled from the spec. *)
Module SwapRepository.
(** Modelled from the spec: [updateSwap(swap, fields)] of the repository
    contract, which returns the record after the update and writes the
    fields to the row of the record. *)
Definition update (swap : Swap.t) (v : Swap.values) : Promise Swap.t :=
  λ st, (Fulfilled (Swap.set swap v),
         with_swaps st
           ((λ row, if decide (Swap.id row = Swap.id swap)
                    then Swap.set row v else row) <$> swaps st)).

(** Modelled from the spec: [getSwap] of [db/SwapRepository], the spec's
    [findOneSwap(predicate)]: the first swap that satisfies the options, if
    there is one. *)
Definition getSwap (options : Swap.t → Prop)
    `{!∀ row, Decision (options row)} : Promise (option Swap.t) :=
  λ st, (Fulfilled (snd <$> list_find options (swaps st)), st).

(** Modelled from the spec: [setLockupTransaction] of [db/SwapRepository]
    records the lockup as the spec words it: [lockupTransactionId = txHash],
    [minerFee] updated, [status = transaction.mempool].  The fee is the
    number the handler passes; the spec puts no condition on the flag that
    the handler passes last.  The handlers call it with a swap they have
    just read in [swap.created] or [invoice.set], so the call always
    changes the status of the instance and the row is always written. *)
Definition setLockupTransaction (swap : Swap.t)
    (lockupTransactionId : string) (minerFee : Z) (flag : bool)
    : Promise Swap.t :=
  update swap
    {| Swap.v_status := Some SwapUpdateEvent.TransactionMempool;
       Swap.v_lockupTransactionId := Some lockupTransactionId;
       Swap.v_minerFee := Some minerFee |}.
End SwapRepository.

Module ReverseSwapRepository.
(** [reverseSwap.update(values)].  Sequelize sets the given keys on the
    instance and saves it with the given keys as the fields
    ([fields = _.union(Object.keys(values), sideEffects)]).  [save]
    returns without a query when nothing has changed on the instance
    ([if (!this.changed() && !this.isNewRecord) return this]); otherwise
    its [UPDATE] names these fields, with the values the instance now
    holds, for the row of the primary key.  An instance that was read
    earlier can so differ from its row, and a value it holds already is
    not written on its own. *)
Definition update (reverseSwap : ReverseSwap.t) (v : ReverseSwap.values)
    : Promise ReverseSwap.t :=
  λ st,
    let updated := ReverseSwap.set reverseSwap v in
    (Fulfilled updated,
     if decide (updated = reverseSwap) then st
     else
       with_reverseSwaps st
         ((λ row,
             if decide (ReverseSwap.id row = ReverseSwap.id reverseSwap)
             then ReverseSwap.set row v else row) <$> reverseSwaps st)).

Definition getReverseSwaps (options : ReverseSwap.t → Prop)
    `{!∀ row, Decision (options row)} : Promise (list ReverseSwap.t) :=
  λ st, (Fulfilled (filter options (reverseSwaps st)), st).

Definition getReverseSwapsExpirable (height : Z)
    : Promise (list ReverseSwap.t) :=
  getReverseSwaps
    (λ row,
       (ReverseSwap.status row ∉
          [ SwapUpdateEvent.SwapExpired;
            SwapUpdateEvent.TransactionFailed;
            SwapUpdateEvent.TransactionRefunded;
            SwapUpdateEvent.InvoiceSettled;
            SwapUpdateEvent.TransactionMempool ])
       ∧ ReverseSwap.timeoutBlockHeight row ≤ height).

Definition getReverseSwap (options : ReverseSwap.t → Prop)
    `{!∀ row, Decision (options row)} : Promise (option ReverseSwap.t) :=
  λ st, (Fulfilled (snd <$> list_find options (reverseSwaps st)), st).

(** [failureReason] is [None] when the caller omits it; the key
    [failureReason] of the object is then [undefined]. *)
Definition setReverseSwapStatus (reverseSwap : ReverseSwap.t)
    (status : string) (failureReason : option string)
    : Promise ReverseSwap.t :=
  update reverseSwap
    {| ReverseSwap.v_status := Some status;
       ReverseSwap.v_failureReason := failureReason;
       ReverseSwap.v_minerFee := None;
       ReverseSwap.v_transactionId := None;
       ReverseSwap.v_transactionVout := None;
       ReverseSwap.v_preimage := None;
       ReverseSwap.v_rawTx := None |}.

(** [vout] is [None] when the caller omits it. *)
Definition setLockupTransaction (reverseSwap : ReverseSwap.t)
    (transactionId : string) (minerFee : Z) (vout : option Z)
    : Promise ReverseSwap.t :=
  update reverseSwap
    {| ReverseSwap.v_status := Some SwapUpdateEvent.TransactionMempool;
       ReverseSwap.v_failureReason := None;
       ReverseSwap.v_minerFee := Some minerFee;
       ReverseSwap.v_transactionId := Some transactionId;
       ReverseSwap.v_transactionVout := vout;
       ReverseSwap.v_preimage := None;
       ReverseSwap.v_rawTx := None |}.

Definition setInvoiceSettled (reverseSwap : ReverseSwap.t)
    (preimage : string) : Promise ReverseSwap.t :=
  update reverseSwap
    {| ReverseSwap.v_status := Some SwapUpdateEvent.InvoiceSettled;
       ReverseSwap.v_failureReason := None;
       ReverseSwap.v_minerFee := None;
       ReverseSwap.v_transactionId := None;
       ReverseSwap.v_transactionVout := None;
       ReverseSwap.v_preimage := Some preimage;
       ReverseSwap.v_rawTx := None |}.

Definition setReverseSwapRawTx (reverseSwap : ReverseSwap.t)
    (rawTx : string) : Promise ReverseSwap.t :=
  update reverseSwap
    {| ReverseSwap.v_status := None;
       ReverseSwap.v_failureReason := None;
       ReverseSwap.v_minerFee := None;
       ReverseSwap.v_transactionId := None;
       ReverseSwap.v_transactionVout := None;
       ReverseSwap.v_preimage := None;
       ReverseSwap.v_rawTx := Some rawTx |}.
End ReverseSwapRepository.

(** ** The nursery *)

(** What the class is constructed with and what it imports from files that
    are not in src: the address and the provider of [rskManager], the
    wallets of [walletManager], [etherDecimals] of [consts/Consts] and
    three helpers of [Utils].  [provider_getTransaction] is how the promise
    of [provider.getTransaction] settles for a transaction id. *)
Class Environment : Type := {
  rskManager_address : string;
  provider_getTransaction : option string → Settled ContractTransaction;
  walletManager_wallets : gmap string Wallet.t;
  etherDecimals : Z;
  getHexString : Buffer → string;
  splitPairId : string → string * string;
  getChainCurrency : string → string → OrderSide → bool → string;
}.

Section RskNursery.
Context `{!Environment}.

Import SwapUpdateEvent.

(** [getEthereumWallet]: the wallet of the symbol when there is one and
    it is an Ethereum one. *)
Definition getEthereumWallet (symbol : string) : option Wallet.t :=
  match walletManager_wallets !! symbol with
  | None => None
  | Some wallet =>
      if decide (Wallet.type wallet = Rbtc ∨ Wallet.type wallet = ERC20)
      then Some wallet
      else None
  end.

(** [listenContractTransaction] attaches the two reactions to
    [transaction.wait(1)]; they run when that promise settles. *)
Definition listenContractTransaction (reverseSwap : ReverseSwap.t)
    (transaction : ContractTransaction) : Promise unit :=
  λ st, (Fulfilled tt,
         with_watchers st (watchers st ++ [(reverseSwap, transaction)])).

(** The chain [transaction.wait(1).then(...).catch(...)] of
    [listenContractTransaction], run on the outcome of the wait. *)
Definition listenContractTransaction_settled (reverseSwap : ReverseSwap.t)
    (transaction : ContractTransaction) : Promise unit :=
  catch
    (and_then (settled (wait transaction 1))
       (λ _,
          await updated ←
            ReverseSwapRepository.setReverseSwapStatus
              reverseSwap TransactionConfirmed None;
          emit (lockup_confirmed updated (hash transaction))))
    (λ reason,
       await updated ←
         ReverseSwapRepository.setReverseSwapStatus
           reverseSwap TransactionFailed None;
       emit (lockup_failedToSend updated reason)).

Definition init : Promise unit :=
  await mempoolReverseSwaps ←
    ReverseSwapRepository.getReverseSwaps
      (λ row, ReverseSwap.status row = TransactionMempool);
  for_of mempoolReverseSwaps
    (λ mempoolReverseSwap,
       let split := splitPairId (ReverseSwap.pair mempoolReverseSwap) in
       let chainCurrency :=
         getChainCurrency split.1 split.2
           (ReverseSwap.orderSide mempoolReverseSwap) true in
       match getEthereumWallet chainCurrency with
       | None => resolve tt
       | Some _ =>
           catch
             (await transaction ←
                settled
                  (provider_getTransaction
                     (ReverseSwap.transactionId mempoolReverseSwap));
              listenContractTransaction mempoolReverseSwap transaction)
             (λ _, resolve tt)
       end).

(** The [where] options of the two lockup handlers. *)
Definition lockupOptions (values : EtherSwapValues) (row : Swap.t) : Prop :=
  Swap.preimageHash row = getHexString (preimageHash values)
  ∧ (Swap.status row = SwapCreated ∨ Swap.status row = InvoiceSet).

#[global] Instance lockupOptions_dec values row :
  Decision (lockupOptions values row).
Proof. unfold lockupOptions. apply _. Defined.

(** The [where] options of the two claim handlers. *)
Definition claimOptions (preimageHash : Buffer) (row : ReverseSwap.t)
    : Prop :=
  ReverseSwap.preimageHash row = getHexString preimageHash
  ∧ ReverseSwap.status row ≠ InvoiceSettled.

#[global] Instance claimOptions_dec preimageHash row :
  Decision (claimOptions preimageHash row).
Proof. unfold claimOptions. apply _. Defined.

(** The listener of ['eth.lockup'] in [listenEtherSwap].  The arguments of
    [setLockupTransaction] are evaluated before the call, so a fault of
    [amount.div(etherDecimals).toNumber()] leaves the swap as it was. *)
Definition listenEtherSwap_lockup (transactionHash : string)
    (etherSwapValues : EtherSwapValues) : Promise unit :=
  await found ← SwapRepository.getSwap (lockupOptions etherSwapValues);
  match found with
  | None => resolve tt
  | Some swap =>
      let split := splitPairId (Swap.pair swap) in
      let chainCurrency :=
        getChainCurrency split.1 split.2 (Swap.orderSide swap) false in
      if decide (chainCurrency ≠ "RBTC") then resolve tt
      else
        await quotient ←
          settled (BigNumber.div (amount etherSwapValues) etherDecimals);
        await locked ← settled (BigNumber.toNumber quotient);
        await swap ←
          SwapRepository.setLockupTransaction swap transactionHash
            locked true;
        let accept :=
          emit (eth_lockup swap transactionHash etherSwapValues) in
        if decide (claimAddress etherSwapValues ≠ rskManager_address) then
          emit (lockup_failed swap
                  (Errors.INVALID_CLAIM_ADDRESS
                     (claimAddress etherSwapValues) rskManager_address))
        else if decide (timelock etherSwapValues
                        ≠ Swap.timeoutBlockHeight swap) then
          emit (lockup_failed swap
                  (Errors.INVALID_TIMELOCK
                     (timelock etherSwapValues)
                     (Swap.timeoutBlockHeight swap)))
        else
          match Swap.expectedAmount swap with
          | None => accept
          | Some number =>
              if decide (Qnum number = 0) then accept
              else
                await converted ← settled (BigNumber.from number);
                let expectedAmount := converted * etherDecimals in
                if decide (expectedAmount > amount etherSwapValues) then
                  await quotient ←
                    settled
                      (BigNumber.div (amount etherSwapValues) etherDecimals);
                  await actual ← settled (BigNumber.toNumber quotient);
                  emit (lockup_failed swap
                          (Errors.INSUFFICIENT_AMOUNT actual number))
                else accept
          end
  end.

(** The listener of ['eth.claim'] in [listenEtherSwap]. *)
Definition listenEtherSwap_claim (transactionHash : string)
    (preimageHash preimage : Buffer) : Promise unit :=
  await found ←
    ReverseSwapRepository.getReverseSwap (claimOptions preimageHash);
  match found with
  | None => resolve tt
  | Some reverseSwap => emit (claim reverseSwap preimage)
  end.

(** The listener of ['erc20.lockup'] in [listenERC20Swap]. *)
Definition listenERC20Swap_lockup (transactionHash : string)
    (erc20SwapValues : ERC20SwapValues) : Promise unit :=
  await found ← SwapRepository.getSwap (lockupOptions erc20SwapValues);
  match found with
  | None => resolve tt
  | Some swap =>
      let split := splitPairId (Swap.pair swap) in
      let chainCurrency :=
        getChainCurrency split.1 split.2 (Swap.orderSide swap) false in
      match walletManager_wallets !! chainCurrency with
      | None => resolve tt
      | Some wallet =>
          if decide (Wallet.type wallet ≠ ERC20) then resolve tt
          else
            let erc20Wallet := Wallet.walletProvider wallet in
            await locked ←
              settled
                (normalizeTokenAmount erc20Wallet (amount erc20SwapValues));
            await swap ←
              SwapRepository.setLockupTransaction swap transactionHash
                locked true;
            let accept :=
              emit (erc20_lockup swap transactionHash erc20SwapValues) in
            if decide (claimAddress erc20SwapValues
                       ≠ rskManager_address) then
              emit (lockup_failed swap
                      (Errors.INVALID_CLAIM_ADDRESS
                         (claimAddress erc20SwapValues)
                         rskManager_address))
            else if decide (tokenAddress erc20SwapValues
                            ≠ getTokenAddress erc20Wallet) then
              emit (lockup_failed swap
                      (Errors.INVALID_TOKEN_LOCKED
                         (tokenAddress erc20SwapValues)
                         rskManager_address))
            else if decide (timelock erc20SwapValues
                            ≠ Swap.timeoutBlockHeight swap) then
              emit (lockup_failed swap
                      (Errors.INVALID_TIMELOCK
                         (timelock erc20SwapValues)
                         (Swap.timeoutBlockHeight swap)))
            else
              match Swap.expectedAmount swap with
              | None => accept
              | Some number =>
                  if decide (Qnum number = 0) then accept
                  else
                    await expectedAmount ←
                      settled (formatTokenAmount erc20Wallet number);
                    if decide (expectedAmount
                               > amount erc20SwapValues) then
                      await actual ←
                        settled
                          (normalizeTokenAmount erc20Wallet
                             (amount erc20SwapValues));
                      emit (lockup_failed swap
                              (Errors.INSUFFICIENT_AMOUNT actual number))
                    else accept
              end
      end
  end.

(** The listener of ['erc20.claim'] in [listenERC20Swap]. *)
Definition listenERC20Swap_claim (transactionHash : string)
    (preimageHash preimage : Buffer) : Promise unit :=
  await found ←
    ReverseSwapRepository.getReverseSwap (claimOptions preimageHash);
  match found with
  | None => resolve tt
  | Some reverseSwap => emit (claim reverseSwap preimage)
  end.

Definition checkExpiredReverseSwaps (height : Z) : Promise unit :=
  await expirableReverseSwaps ←
    ReverseSwapRepository.getReverseSwapsExpirable height;
  for_of expirableReverseSwaps
    (λ expirableReverseSwap,
       let split := splitPairId (ReverseSwap.pair expirableReverseSwap) in
       let chainCurrency :=
         getChainCurrency split.1 split.2
           (ReverseSwap.orderSide expirableReverseSwap) true in
       match getEthereumWallet chainCurrency with
       | Some wallet =>
           emit (reverseSwap_expired expirableReverseSwap
                   (bool_decide (Wallet.symbol wallet = "RBTC")))
       | None => resolve tt
       end).

End RskNursery.

(** ** The validator, as the specification words it *)

(** A check is the condition under which it fails and the reason it then
    gives; a validator is a list of checks in priority order, and its
    verdict is the reason of the first check that fails. *)
Fixpoint firstFailure (checks : list (bool * Errors.t)) : option Errors.t :=
  match checks with
  | [] => None
  | (fails, reason) :: rest => if fails then Some reason else firstFailure rest
  end.

Section Validator.
Context `{!Environment}.

Definition claimAddressCheck (values : EtherSwapValues) : bool * Errors.t :=
  (bool_decide (claimAddress values ≠ rskManager_address),
   Errors.INVALID_CLAIM_ADDRESS (claimAddress values) rskManager_address).

Definition timelockCheck (swap : Swap.t) (values : EtherSwapValues)
    : bool * Errors.t :=
  (bool_decide (timelock values ≠ Swap.timeoutBlockHeight swap),
   Errors.INVALID_TIMELOCK (timelock values) (Swap.timeoutBlockHeight swap)).

Definition tokenAddressCheck (erc20Wallet : ERC20WalletProvider)
    (values : ERC20SwapValues) : bool * Errors.t :=
  (bool_decide (tokenAddress values ≠ getTokenAddress erc20Wallet),
   Errors.INVALID_TOKEN_LOCKED (tokenAddress values) rskManager_address).

(** The expected amount is set when it is truthy: neither missing nor
    zero. *)
Definition expectedAmountSet (swap : Swap.t) (number : Q) : Prop :=
  Swap.expectedAmount swap = Some number ∧ Qnum number ≠ 0.

(** [amount.div(etherDecimals).toNumber()], the number the native handler
    records and reports: a fault of the division or of the conversion
    rejects. *)
Definition etherLocked (values : EtherSwapValues) : Settled Z :=
  match BigNumber.div (amount values) etherDecimals with
  | Fulfilled quotient => BigNumber.toNumber quotient
  | Rejected fault => Rejected fault
  end.

(** The expected amount in the unit of the contract, as the native handler
    computes it: nothing when the expected amount is falsy, and a fault
    when [BigNumber.from] throws. *)
Definition etherExpected (swap : Swap.t) : Settled (option Z) :=
  match Swap.expectedAmount swap with
  | None => Fulfilled None
  | Some number =>
      if decide (Qnum number = 0) then Fulfilled None
      else
        match BigNumber.from number with
        | Fulfilled converted => Fulfilled (Some (converted * etherDecimals))
        | Rejected fault => Rejected fault
        end
  end.

(** The same for the token handler, which asks the wallet. *)
Definition tokenExpected (erc20Wallet : ERC20WalletProvider)
    (swap : Swap.t) : Settled (option Z) :=
  match Swap.expectedAmount swap with
  | None => Fulfilled None
  | Some number =>
      if decide (Qnum number = 0) then Fulfilled None
      else
        match formatTokenAmount erc20Wallet number with
        | Fulfilled expected => Fulfilled (Some expected)
        | Rejected fault => Rejected fault
        end
  end.

(** The amount check, for the recorded number [locked] and the expected
    amount [expected] in the unit of the contract. *)
Definition amountCheck (swap : Swap.t) (values : EtherSwapValues)
    (locked : Z) (expected : option Z) : bool * Errors.t :=
  (match expected with
   | Some units => bool_decide (units > amount values)
   | None => false
   end,
   Errors.INSUFFICIENT_AMOUNT locked
     (default 0%Q (Swap.expectedAmount swap))).

(** The checks that come before the amount is looked at. *)
Definition etherAddressChecks (swap : Swap.t) (values : EtherSwapValues)
    : list (bool * Errors.t) :=
  [ claimAddressCheck values;
    timelockCheck swap values ].

Definition erc20AddressChecks (erc20Wallet : ERC20WalletProvider)
    (swap : Swap.t) (values : ERC20SwapValues) : list (bool * Errors.t) :=
  [ claimAddressCheck values;
    tokenAddressCheck erc20Wallet values;
    timelockCheck swap values ].

(** The order in which [listenEtherSwap] checks a lockup. *)
Definition etherSwapChecks (swap : Swap.t) (values : EtherSwapValues)
    (locked : Z) (expected : option Z) : list (bool * Errors.t) :=
  etherAddressChecks swap values ++ [ amountCheck swap values locked expected ].

(** The order in which [listenERC20Swap] checks a lockup. *)
Definition erc20SwapChecks (erc20Wallet : ERC20WalletProvider)
    (swap : Swap.t) (values : ERC20SwapValues) (locked : Z)
    (expected : option Z) : list (bool * Errors.t) :=
  erc20AddressChecks erc20Wallet swap values
  ++ [ amountCheck swap values locked expected ].

(** The order the specification gives for a token chain: claim address,
    timelock, token address, amount. *)
Definition specifiedTokenChecks (erc20Wallet : ERC20WalletProvider)
    (swap : Swap.t) (values : ERC20SwapValues) (locked : Z)
    (expected : option Z) : list (bool * Errors.t) :=
  [ claimAddressCheck values;
    timelockCheck swap values;
    tokenAddressCheck erc20Wallet values;
    amountCheck swap values locked expected ].

(** The chain on which a swap expects its lockup, and the chain on which
    a reverse swap sends its coins. *)
Definition lockupChain (swap : Swap.t) : string :=
  let split := splitPairId (Swap.pair swap) in
  getChainCurrency split.1 split.2 (Swap.orderSide swap) false.

Definition sendingChain (reverseSwap : ReverseSwap.t) : string :=
  let split := splitPairId (ReverseSwap.pair reverseSwap) in
  getChainCurrency split.1 split.2 (ReverseSwap.orderSide reverseSwap) true.

(** The event a lockup handler emits for a verdict: the failure with its
    reason, or the event that accepts the lockup. *)
Definition verdictEvent (swap : Swap.t) (accepted : NurseryEvent)
    (verdict : option Errors.t) : NurseryEvent :=
  match verdict with
  | Some reason => lockup_failed swap reason
  | None => accepted
  end.

(** What a lockup handler does once the lockup is recorded: the checks on
    the addresses and the timelock come first; the expected amount is
    converted only when they pass, and a fault of that conversion rejects
    the handler. *)
Definition etherVerdict (swap : Swap.t) (values : EtherSwapValues)
    (locked : Z) : Settled (option Errors.t) :=
  match firstFailure (etherAddressChecks swap values) with
  | Some reason => Fulfilled (Some reason)
  | None =>
      match etherExpected swap with
      | Fulfilled expected =>
          Fulfilled (firstFailure [amountCheck swap values locked expected])
      | Rejected fault => Rejected fault
      end
  end.

Definition erc20Verdict (erc20Wallet : ERC20WalletProvider) (swap : Swap.t)
    (values : ERC20SwapValues) (locked : Z) : Settled (option Errors.t) :=
  match firstFailure (erc20AddressChecks erc20Wallet swap values) with
  | Some reason => Fulfilled (Some reason)
  | None =>
      match tokenExpected erc20Wallet swap with
      | Fulfilled expected =>
          Fulfilled (firstFailure [amountCheck swap values locked expected])
      | Rejected fault => Rejected fault
      end
  end.

(** The watchers [init] attaches for a list of reverse swaps. *)
Definition attached (mempoolReverseSwaps : list ReverseSwap.t)
    : list (ReverseSwap.t * ContractTransaction) :=
  omap
    (λ reverseSwap,
       match getEthereumWallet (sendingChain reverseSwap),
             provider_getTransaction (ReverseSwap.transactionId reverseSwap)
       with
       | Some _, Fulfilled transaction => Some (reverseSwap, transaction)
       | _, _ => None
       end)
    mempoolReverseSwaps.

(** The events the expiry scan emits for a list of reverse swaps. *)
Definition expiredEvents (expirable : list ReverseSwap.t)
    : list NurseryEvent :=
  omap
    (λ reverseSwap,
       match getEthereumWallet (sendingChain reverseSwap) with
       | Some wallet =>
           Some (reverseSwap_expired reverseSwap
                   (bool_decide (Wallet.symbol wallet = "RBTC")))
       | None => None
       end)
    expirable.
End Validator.

(** ** A concrete nursery *)

Module Example.
Definition hexDigit (digit : N) : string :=
  String.substring (N.to_nat digit) 1 "0123456789abcdef".

Definition hexOfByte (b : byte) : string :=
  hexDigit (Byte.to_N b / 16) +:+ hexDigit (Byte.to_N b mod 16).

Definition hex (buffer : Buffer) : string :=
  foldr (λ b rest, hexOfByte b +:+ rest) "" buffer.

Fixpoint splitAtSlash (s : string) : string * string :=
  match s with
  | EmptyString => (EmptyString, EmptyString)
  | String c rest =>
      if Ascii.eqb c (Ascii.ascii_of_nat 47) then (EmptyString, rest)
      else (String c (splitAtSlash rest).1, (splitAtSlash rest).2)
  end.

Definition chainCurrency (base quote : string) (side : OrderSide)
    (isReverse : bool) : string :=
  match isReverse, side with
  | true, BUY => base
  | true, SELL => quote
  | false, BUY => quote
  | false, SELL => base
  end.

Definition tokenProvider : ERC20WalletProvider :=
  {| getTokenAddress := "0xT0KEN";
     formatTokenAmount :=
       λ number,
         match BigNumber.from number with
         | Fulfilled converted => Fulfilled (converted * 10 ^ 10)
         | Rejected fault => Rejected fault
         end;
     normalizeTokenAmount :=
       λ value, BigNumber.toNumber (value `quot` 10 ^ 10) |}.

Definition wallets : gmap string Wallet.t :=
  <["RBTC" := {| Wallet.symbol := "RBTC"; Wallet.type := Rbtc;
                 Wallet.walletProvider := tokenProvider |}]>
  (<["SOV" := {| Wallet.symbol := "SOV"; Wallet.type := ERC20;
                 Wallet.walletProvider := tokenProvider |}]>
  (<["BTC" := {| Wallet.symbol := "BTC"; Wallet.type := BitcoinLike;
                 Wallet.walletProvider := tokenProvider |}]> ∅)).

Definition lockupTransaction : ContractTransaction :=
  {| hash := "0xl0ck"; wait := λ _, Fulfilled tt |}.

Definition droppedTransaction : ContractTransaction :=
  {| hash := "0xdr0p"; wait := λ _, Rejected "transaction was replaced" |}.

Definition environment : Environment :=
  {| rskManager_address := "0xNURSERY";
     provider_getTransaction :=
       λ transactionId,
         if decide (transactionId = Some "0xl0ck")
         then Fulfilled lockupTransaction
         else Rejected "transaction not found";
     walletManager_wallets := wallets;
     etherDecimals := 10 ^ 18;
     getHexString := hex;
     splitPairId := splitAtSlash;
     getChainCurrency := chainCurrency |}.

Definition swap (id pair preimageHash status : string)
    (timeoutBlockHeight : Z) (expectedAmount : option Q) : Swap.t :=
  {| Swap.id := id; Swap.pair := pair; Swap.orderSide := BUY;
     Swap.preimageHash := preimageHash; Swap.status := status;
     Swap.timeoutBlockHeight := timeoutBlockHeight;
     Swap.expectedAmount := expectedAmount;
     Swap.lockupTransactionId := None; Swap.minerFee := None |}.

Definition reverseSwap (id pair preimageHash status : string)
    (timeoutBlockHeight : Z) (transactionId failureReason : option string)
    : ReverseSwap.t :=
  {| ReverseSwap.id := id; ReverseSwap.pair := pair;
     ReverseSwap.orderSide := BUY;
     ReverseSwap.preimageHash := preimageHash;
     ReverseSwap.status := status;
     ReverseSwap.timeoutBlockHeight := timeoutBlockHeight;
     ReverseSwap.transactionId := transactionId;
     ReverseSwap.transactionVout := None;
     ReverseSwap.minerFee := Some 21;
     ReverseSwap.preimage := None;
     ReverseSwap.failureReason := failureReason;
     ReverseSwap.rawTx := Some "02000000" |}.

Definition etherSwap : Swap.t :=
  swap "s1" "BTC/RBTC" "aabb" "swap.created" 1000 (Some 2%Q).
Definition tokenSwap : Swap.t :=
  swap "s2" "BTC/SOV" "ccdd" "invoice.set" 2000 (Some 5%Q).
Definition freeEtherSwap : Swap.t :=
  swap "s3" "BTC/RBTC" "eeff" "swap.created" 1000 (Some 0%Q).
Definition freeTokenSwap : Swap.t :=
  swap "s4" "BTC/SOV" "0102" "swap.created" 2000 None.
Definition lockedSwap : Swap.t :=
  swap "s5" "BTC/RBTC" "0304" "transaction.mempool" 1000 (Some 2%Q).

Definition pending : ReverseSwap.t :=
  reverseSwap "r1" "RBTC/BTC" "1111" "transaction.mempool" 900
    (Some "0xl0ck") (Some "an earlier failure").
Definition elsewhere : ReverseSwap.t :=
  reverseSwap "r2" "BTC/RBTC" "2222" "transaction.mempool" 900
    (Some "0xl0ck") None.
Definition lost : ReverseSwap.t :=
  reverseSwap "r3" "RBTC/BTC" "3333" "transaction.mempool" 900
    (Some "0xg0ne") None.
Definition confirmed : ReverseSwap.t :=
  reverseSwap "r4" "RBTC/BTC" "4444" "transaction.confirmed" 900
    (Some "0xc0nf") None.

Definition state : State :=
  {| swaps := [etherSwap; tokenSwap; freeEtherSwap; freeTokenSwap; lockedSwap];
     reverseSwaps := [pending; elsewhere; lost; confirmed];
     emitted := [];
     watchers := [] |}.

Definition etherValues (preimageHash : Buffer) (amount : Z)
    (claimAddress : string) (timelock : Z) : EtherSwapValues :=
  {| preimageHash := preimageHash; amount := amount;
     claimAddress := claimAddress; timelock := timelock |}.

Definition tokenValues (preimageHash : Buffer) (amount : Z)
    (claimAddress : string) (timelock : Z) (tokenAddress : string)
    : ERC20SwapValues :=
  {| etherSwapValues_of :=
       etherValues preimageHash amount claimAddress timelock;
     tokenAddress := tokenAddress |}.

(** Lockups of the native asset for [etherSwap], which expects 2. *)
Definition etherShort : EtherSwapValues :=
  etherValues [xaa; xbb] (10 ^ 18) "0xNURSERY" 1000.
Definition etherEnough : EtherSwapValues :=
  etherValues [xaa; xbb] (2 * 10 ^ 18) "0xNURSERY" 1000.
Definition etherForSomeoneElse : EtherSwapValues :=
  etherValues [xaa; xbb] (3 * 10 ^ 18) "0xS0ME0NE" 1000.

(** Lockups of the token for [tokenSwap], which expects 5. *)
Definition tokenShort : ERC20SwapValues :=
  tokenValues [xcc; xdd] (4 * 10 ^ 10) "0xNURSERY" 2000 "0xT0KEN".
Definition tokenEnough : ERC20SwapValues :=
  tokenValues [xcc; xdd] (5 * 10 ^ 10) "0xNURSERY" 2000 "0xT0KEN".
Definition wrongTokenAndTimelock : ERC20SwapValues :=
  tokenValues [xcc; xdd] (5 * 10 ^ 10) "0xNURSERY" 1999 "0x0THER".

(** Lockups of nothing for the two swaps without an expected amount, and
    a lockup for the swap that is already in [transaction.mempool]. *)
Definition etherNothing : EtherSwapValues :=
  etherValues [xee; xff] 0 "0xNURSERY" 1000.
Definition tokenNothing : ERC20SwapValues :=
  tokenValues [x01; x02] 0 "0xNURSERY" 2000 "0xT0KEN".
Definition etherReplayed : EtherSwapValues :=
  etherValues [x03; x04] (2 * 10 ^ 18) "0xNURSERY" 1000.

(** A swap and the table once a lockup is recorded. *)
Definition recorded (swap : Swap.t) (transactionHash : string) (fee : Z)
    : Swap.t :=
  {| Swap.id := Swap.id swap; Swap.pair := Swap.pair swap;
     Swap.orderSide := Swap.orderSide swap;
     Swap.preimageHash := Swap.preimageHash swap;
     Swap.status := "transaction.mempool";
     Swap.timeoutBlockHeight := Swap.timeoutBlockHeight swap;
     Swap.expectedAmount := Swap.expectedAmount swap;
     Swap.lockupTransactionId := Some transactionHash;
     Swap.minerFee := Some fee |}.

Definition recordedState (swap : Swap.t) (transactionHash : string)
    (fee : Z) : State :=
  with_swaps state
    ((λ row, if decide (Swap.id row = Swap.id swap)
             then recorded row transactionHash fee
             else row) <$> swaps state).

(** A reverse swap with another status. *)
Definition withStatus (row : ReverseSwap.t) (status : string)
    : ReverseSwap.t :=
  {| ReverseSwap.id := ReverseSwap.id row;
     ReverseSwap.pair := ReverseSwap.pair row;
     ReverseSwap.orderSide := ReverseSwap.orderSide row;
     ReverseSwap.preimageHash := ReverseSwap.preimageHash row;
     ReverseSwap.status := status;
     ReverseSwap.timeoutBlockHeight := ReverseSwap.timeoutBlockHeight row;
     ReverseSwap.transactionId := ReverseSwap.transactionId row;
     ReverseSwap.transactionVout := ReverseSwap.transactionVout row;
     ReverseSwap.minerFee := ReverseSwap.minerFee row;
     ReverseSwap.preimage := ReverseSwap.preimage row;
     ReverseSwap.failureReason := ReverseSwap.failureReason row;
     ReverseSwap.rawTx := ReverseSwap.rawTx row |}.
End Example.

(** ** When a lockup event is recorded *)

Section Recorded.
Context `{!Environment}.

(** The event of the native contract matches a swap of this chain and its
    amount converts to the number [locked]; [swap'] and [st1] are the
    instance and the state once the handler has recorded the lockup. *)
Definition etherLockupRecorded (st : State) (transactionHash : string)
    (values : EtherSwapValues) (locked : Z) (swap' : Swap.t) (st1 : State)
    : Prop :=
  ∃ swap,
    (SwapRepository.getSwap (lockupOptions values) st).1
      = Fulfilled (Some swap)
    ∧ lockupChain swap = "RBTC"
    ∧ etherLocked values = Fulfilled locked
    ∧ SwapRepository.setLockupTransaction swap transactionHash locked true st
      = (Fulfilled swap', st1).

(** The same for the token contract; [erc20Wallet] is the provider of the
    wallet the chain of the swap resolves to. *)
Definition erc20LockupRecorded (st : State) (transactionHash : string)
    (values : ERC20SwapValues) (erc20Wallet : ERC20WalletProvider)
    (locked : Z) (swap' : Swap.t) (st1 : State) : Prop :=
  ∃ swap wallet,
    (SwapRepository.getSwap (lockupOptions values) st).1
      = Fulfilled (Some swap)
    ∧ walletManager_wallets !! lockupChain swap = Some wallet
    ∧ Wallet.type wallet = ERC20
    ∧ erc20Wallet = Wallet.walletProvider wallet
    ∧ normalizeTokenAmount erc20Wallet (amount values) = Fulfilled locked
    ∧ SwapRepository.setLockupTransaction swap transactionHash locked true st
      = (Fulfilled swap', st1).

(** [new] is [old] with the lockup written: the three columns of the
    lockup are set and every other column is as it was. *)
Definition lockupWritten (transactionHash : string) (fee : Z)
    (old new : Swap.t) : Prop :=
  Swap.status new = SwapUpdateEvent.TransactionMempool
  ∧ Swap.lockupTransactionId new = Some transactionHash
  ∧ Swap.minerFee new = Some fee
  ∧ Swap.id new = Swap.id old
  ∧ Swap.pair new = Swap.pair old
  ∧ Swap.orderSide new = Swap.orderSide old
  ∧ Swap.preimageHash new = Swap.preimageHash old
  ∧ Swap.timeoutBlockHeight new = Swap.timeoutBlockHeight old
  ∧ Swap.expectedAmount new = Swap.expectedAmount old.

(** What recording a lockup leaves behind: the instance [swap'] is a swap
    that matched the event with the lockup written, the rows of its
    primary key have the lockup written, and the other rows and the rest
    of the state are as they were. *)
Definition lockupRecord (st : State) (transactionHash : string)
    (values : EtherSwapValues) (fee : Z) (swap' : Swap.t) (st1 : State)
    : Prop :=
  (∃ swap,
     swap ∈ swaps st ∧ lockupOptions values swap
     ∧ lockupWritten transactionHash fee swap swap')
  ∧ Forall2
      (λ old new,
         if decide (Swap.id old = Swap.id swap')
         then lockupWritten transactionHash fee old new
         else new = old)
      (swaps st) (swaps st1)
  ∧ reverseSwaps st1 = reverseSwaps st
  ∧ emitted st1 = emitted st
  ∧ watchers st1 = watchers st.

(** [new] is [old] with the status written, the failure reason written
    when one is given, and every other column as it was. *)
Definition statusWritten (status : string) (failureReason : option string)
    (old new : ReverseSwap.t) : Prop :=
  ReverseSwap.status new = status
  ∧ ReverseSwap.failureReason new
    = match failureReason with
      | Some reason => Some reason
      | None => ReverseSwap.failureReason old
      end
  ∧ ReverseSwap.id new = ReverseSwap.id old
  ∧ ReverseSwap.pair new = ReverseSwap.pair old
  ∧ ReverseSwap.orderSide new = ReverseSwap.orderSide old
  ∧ ReverseSwap.preimageHash new = ReverseSwap.preimageHash old
  ∧ ReverseSwap.timeoutBlockHeight new = ReverseSwap.timeoutBlockHeight old
  ∧ ReverseSwap.transactionId new = ReverseSwap.transactionId old
  ∧ ReverseSwap.transactionVout new = ReverseSwap.transactionVout old
  ∧ ReverseSwap.minerFee new = ReverseSwap.minerFee old
  ∧ ReverseSwap.preimage new = ReverseSwap.preimage old
  ∧ ReverseSwap.rawTx new = ReverseSwap.rawTx old.

(** The rows of [st1] are the rows of [st], in the same order, with the
    status (and the failure reason, when given) written to the rows of
    the primary key of [reverseSwap]; the rest of the state is as it
    was. *)
Definition statusStored (st : State) (reverseSwap : ReverseSwap.t)
    (status : string) (failureReason : option string) (st1 : State)
    : Prop :=
  Forall2
    (λ old new,
       if decide (ReverseSwap.id old = ReverseSwap.id reverseSwap)
       then statusWritten status failureReason old new
       else new = old)
    (reverseSwaps st) (reverseSwaps st1)
  ∧ swaps st1 = swaps st
  ∧ emitted st1 = emitted st
  ∧ watchers st1 = watchers st.

(** The instance holds the values already: the status, and the failure
    reason when one is given. *)
Definition statusHeld (reverseSwap : ReverseSwap.t) (status : string)
    (failureReason : option string) : Prop :=
  ReverseSwap.status reverseSwap = status
  ∧ ∀ reason, failureReason = Some reason →
      ReverseSwap.failureReason reverseSwap = Some reason.

(** Every given value is new to the instance. *)
Definition statusNew (reverseSwap : ReverseSwap.t) (status : string)
    (failureReason : option string) : Prop :=
  ReverseSwap.status reverseSwap ≠ status
  ∧ ∀ reason, failureReason = Some reason →
      ReverseSwap.failureReason reverseSwap ≠ Some reason.
(** The watcher of [reverseSwap] has set [status]: [updated] and [st1] are
    what [setReverseSwapStatus] returns and leaves.  The instance has the
    status written; the rows of its primary key have it written when it
    is new to the instance, and nothing is written when the instance
    holds it already. *)
Definition statusSet (st : State) (reverseSwap : ReverseSwap.t)
    (status : string) (updated : ReverseSwap.t) (st1 : State) : Prop :=
  ReverseSwapRepository.setReverseSwapStatus reverseSwap status None st
    = (Fulfilled updated, st1)
  ∧ statusWritten status None reverseSwap updated
  ∧ (ReverseSwap.status reverseSwap ≠ status →
     statusStored st reverseSwap status None st1)
  ∧ (ReverseSwap.status reverseSwap = status → st1 = st).

(** What no call of [setReverseSwapStatus] touches: the rows of another
    primary key, the columns other than the status and the failure
    reason, the failure reason when none is given, and the rest of the
    state. *)
Definition statusFrame (st : State) (reverseSwap : ReverseSwap.t)
    (failureReason : option string) (st1 : State) : Prop :=
  Forall2
    (λ old new,
       if decide (ReverseSwap.id old = ReverseSwap.id reverseSwap)
       then
         (failureReason = None →
          ReverseSwap.failureReason new = ReverseSwap.failureReason old)
         ∧ ReverseSwap.id new = ReverseSwap.id old
         ∧ ReverseSwap.pair new = ReverseSwap.pair old
         ∧ ReverseSwap.orderSide new = ReverseSwap.orderSide old
         ∧ ReverseSwap.preimageHash new = ReverseSwap.preimageHash old
         ∧ ReverseSwap.timeoutBlockHeight new
           = ReverseSwap.timeoutBlockHeight old
         ∧ ReverseSwap.transactionId new = ReverseSwap.transactionId old
         ∧ ReverseSwap.transactionVout new = ReverseSwap.transactionVout old
         ∧ ReverseSwap.minerFee new = ReverseSwap.minerFee old
         ∧ ReverseSwap.preimage new = ReverseSwap.preimage old
         ∧ ReverseSwap.rawTx new = ReverseSwap.rawTx old
       else new = old)
    (reverseSwaps st) (reverseSwaps st1)
  ∧ swaps st1 = swaps st
  ∧ emitted st1 = emitted st
  ∧ watchers st1 = watchers st.
End Recorded.

(** ** The block listener *)

Section BlockScan.
Context `{!Environment}.

(** [swapRepository.getSwapsExpirable] is not in src: the swaps it selects
    from the table at a height are a parameter. *)
Variable swapsExpirable : Z → list Swap.t → list Swap.t.

Definition getSwapsExpirable (height : Z) : Promise (list Swap.t) :=
  λ st, (Fulfilled (swapsExpirable height (swaps st)), st).

Definition checkExpiredSwaps (height : Z) : Promise unit :=
  await expirableSwaps ← getSwapsExpirable height;
  for_of expirableSwaps
    (λ expirableSwap,
       let split := splitPairId (Swap.pair expirableSwap) in
       let chainCurrency :=
         getChainCurrency split.1 split.2
           (Swap.orderSide expirableSwap) false in
       let wallet := getEthereumWallet chainCurrency in
       match wallet with
       | Some wallet =>
           emit (swap_expired expirableSwap
                   (bool_decide (Wallet.symbol wallet = "RBTC")))
       | None => resolve tt
       end).

(** The listener of ['block'] in [listenBlocks].  [Promise.all] starts both
    scans, and each scan runs its loop, which has no [await], once its
    query has returned; [swapsFirst] tells whose query returns first. *)
Definition listenBlocks_block (swapsFirst : bool) (height : Z)
    : Promise unit :=
  if swapsFirst
  then await _u ← checkExpiredSwaps height; checkExpiredReverseSwaps height
  else await _u ← checkExpiredReverseSwaps height; checkExpiredSwaps height.

(** The rows that [getReverseSwapsExpirable] selects at a height, and the
    rows that [init] selects. *)
Definition expirableRows (height : Z) (rows : list ReverseSwap.t)
    : list ReverseSwap.t :=
  filter
    (λ row,
       (ReverseSwap.status row ∉
          [ SwapUpdateEvent.SwapExpired;
            SwapUpdateEvent.TransactionFailed;
            SwapUpdateEvent.TransactionRefunded;
            SwapUpdateEvent.InvoiceSettled;
            SwapUpdateEvent.TransactionMempool ])
       ∧ ReverseSwap.timeoutBlockHeight row ≤ height)
    rows.

Definition mempoolRows (rows : list ReverseSwap.t) : list ReverseSwap.t :=
  filter
    (λ row, ReverseSwap.status row = SwapUpdateEvent.TransactionMempool) rows.

(** The events the expiry scan emits for a list of swaps. *)
Definition expiredSwapEvents (expirable : list Swap.t) : list NurseryEvent :=
  omap
    (λ swap,
       match getEthereumWallet (lockupChain swap) with
       | Some wallet =>
           Some (swap_expired swap
                   (bool_decide (Wallet.symbol wallet = "RBTC")))
       | None => None
       end)
    expirable.
End BlockScan.

(** ** The key providers of the wallet manager *)

(** A [Map] of JavaScript with string keys: the entries in the order of
    their first insertion; [set] on a key that is there replaces its value
    in place. *)
Module JsMap.
Definition t (V : Type) : Type := list (string * V).

Definition empty {V} : t V := [].

Fixpoint set {V} (key : string) (value : V) (map : t V) : t V :=
  match map with
  | [] => [(key, value)]
  | (k, v) :: rest =>
      if decide (k = key) then (key, value) :: rest
      else (k, v) :: set key value rest
  end.

Fixpoint get {V} (key : string) (map : t V) : option V :=
  match map with
  | [] => None
  | (k, v) :: rest => if decide (k = key) then Some v else get key rest
  end.

(** The values in the order in which [forEach] visits them. *)
Definition values {V} (map : t V) : list V := snd <$> map.
End JsMap.

(** [getKeyProviderMap] and [getHighestDepthIndex] of the wallet manager
    (src/unnamed/part_000). *)
Module WalletManager.
Record KeyProviderType : Type := {
  symbol : string;
  derivationPath : string;
  highestUsedIndex : Z;
}.

(** The error of [wallet/Errors], which is not in src, that
    [getHighestDepthIndex] throws. *)
Inductive Errors : Type := INVALID_DEPTH_INDEX (depth : Z).

(** How a call that can throw ends. *)
Inductive Completion (A : Type) : Type :=
| Returns (value : A)
| Throws (error : Errors).
Arguments Returns {A} value.
Arguments Throws {A} error.

(** [getKeyProviderMap], on the rows that [keyRepository.getKeyProviders]
    returns. *)
Definition getKeyProviderMap (keyProviders : list KeyProviderType)
    : JsMap.t KeyProviderType :=
  foldl
    (λ map keyProvider,
       JsMap.set (symbol keyProvider)
         {| symbol := symbol keyProvider;
            derivationPath := derivationPath keyProvider;
            highestUsedIndex := highestUsedIndex keyProvider |}
         map)
    JsMap.empty keyProviders.

(** [array[i]] for a number [i]: [undefined] outside the array. *)
Definition at_index (array : list Z) (i : Z) : option Z :=
  if decide (0 ≤ i) then array !! Z.to_nat i else None.

Section Depth.
(** [splitDerivationPath] of [Utils] is not in src: the [master] and the
    [sub] of a path are a parameter. *)
Variable splitDerivationPath : string → string * list Z.

(** [split.sub[depth - 1]] for the path of a key provider. *)
Definition depthIndex (depth : Z) (info : KeyProviderType) : option Z :=
  at_index (splitDerivationPath (derivationPath info)).2 (depth - 1).

Definition getHighestDepthIndex (map : JsMap.t KeyProviderType) (depth : Z)
    : Completion Z :=
  if decide (depth = 0) then Throws (INVALID_DEPTH_INDEX depth)
  else
    Returns
      (foldl
         (λ highestIndex info,
            let split := splitDerivationPath (derivationPath info) in
            let index := at_index split.2 (depth - 1) in
            match index with
            | Some index =>
                if decide (index > highestIndex) then index else highestIndex
            | None => highestIndex
            end)
         (-1) (JsMap.values map)).
End Depth.
End WalletManager.

(** ** More concrete data *)

Module MoreExamples.
(** A swap of the token chain and a swap of a chain without a wallet that
    share the preimage hash of a lockup. *)
Definition foreignSwap : Swap.t :=
  Example.swap "s6" "RBTC/DOC" "0506" "swap.created" 1000 (Some 2%Q).

Definition foreignState : State :=
  with_swaps Example.state
    [foreignSwap; Example.swap "s7" "BTC/RBTC" "0506" "swap.created" 1000 None].

Definition foreignValues : EtherSwapValues :=
  Example.etherValues [x05; x06] (2 * 10 ^ 18) "0xNURSERY" 1000.

(** A swap whose expected amount is not a whole number, alone in the
    table, and a lockup of half of it; [fractionRecorded] is the table
    once that lockup is recorded. *)
Definition fractionSwap : Swap.t :=
  Example.swap "s8" "BTC/RBTC" "0708" "swap.created" 1000 (Some 0.01%Q).

Definition fractionState : State := with_swaps Example.state [fractionSwap].

Definition fractionShort : EtherSwapValues :=
  Example.etherValues [x07; x08] (5 * 10 ^ 15) "0xNURSERY" 1000.

Definition fractionRecorded : State :=
  with_swaps Example.state [Example.recorded fractionSwap "0xtx" 0].

(** Lockups of more than [2 ^ 53] coins: one for [Example.etherSwap] with
    the claim address of someone else, one for [Example.freeEtherSwap]. *)
Definition etherUnsafe : EtherSwapValues :=
  Example.etherValues [xaa; xbb] (10 ^ 34) "0xS0ME0NE" 1000.

Definition etherUnsafeNothing : EtherSwapValues :=
  Example.etherValues [xee; xff] (10 ^ 34) "0xNURSERY" 1000.

(** An instance of [Example.pending] that was changed after it was read:
    it holds [transaction.confirmed], its row [transaction.mempool]. *)
Definition staleConfirmed : ReverseSwap.t :=
  Example.withStatus Example.pending "transaction.confirmed".

(** The swaps a block scan selects: those past their timeout. *)
Definition pastTimeout (height : Z) (rows : list Swap.t) : list Swap.t :=
  filter (λ row, Swap.timeoutBlockHeight row ≤ height) rows.

(** Paths as lists of numbers after the master, written with one digit. *)
Definition digit (c : Ascii.ascii) : Z :=
  Z.of_nat (Ascii.nat_of_ascii c) - 48.

Fixpoint subOf (path : string) : list Z :=
  match path with
  | EmptyString => []
  | String c rest =>
      if Ascii.eqb c (Ascii.ascii_of_nat 47) then subOf rest
      else digit c :: subOf rest
  end.

Definition splitPath (path : string) : string * list Z :=
  match path with
  | EmptyString => (EmptyString, [])
  | String c rest => (String c EmptyString, subOf rest)
  end.

Definition keyProvider (symbol path : string) (highest : Z)
    : WalletManager.KeyProviderType :=
  {| WalletManager.symbol := symbol;
     WalletManager.derivationPath := path;
     WalletManager.highestUsedIndex := highest |}.

Definition keyProviders : list WalletManager.KeyProviderType :=
  [ keyProvider "BTC" "m/0/0" 7;
    keyProvider "LTC" "m/0/3" 2;
    keyProvider "BTC" "m/0/1" 9;
    keyProvider "DOGE" "m/2" 0 ].
End MoreExamples.

(** * Properties *)

Section Properties.
Context `{!Environment}.

Import SwapUpdateEvent.

Implicit Types (st : State) (swap : Swap.t) (reverseSwap : ReverseSwap.t).

(** *** The repositories *)

Lemma emit_run event st :
  emit event st = (Fulfilled tt, with_emitted st (emitted st ++ [event])).
Proof. reflexivity. Qed.

Lemma getSwap_found (options : Swap.t → Prop)
    `{!∀ row, Decision (options row)} st swap :
  (SwapRepository.getSwap options st).1 = Fulfilled (Some swap) →
  swap ∈ swaps st ∧ options swap.
Proof.
  unfold SwapRepository.getSwap. simpl. intros [= Hfind].
  destruct (list_find options (swaps st)) as [[i found]|] eqn:Hlist;
    simplify_eq/=.
  apply list_find_Some in Hlist as (Hlookup & Hoptions & _).
  split; [by eapply list_elem_of_lookup_2 | done].
Qed.

Lemma getSwap_none (options : Swap.t → Prop)
    `{!∀ row, Decision (options row)} st :
  (∀ row, row ∈ swaps st → ¬ options row) →
  SwapRepository.getSwap options st = (Fulfilled None, st).
Proof.
  intros Hnone. unfold SwapRepository.getSwap.
  replace (list_find options (swaps st)) with (@None (nat * Swap.t)); [done|].
  symmetry. apply list_find_None, Forall_forall. exact Hnone.
Qed.

Lemma setLockupTransaction_written swap transactionHash fee flag st swap' st1 :
  SwapRepository.setLockupTransaction swap transactionHash fee flag st
    = (Fulfilled swap', st1) →
  lockupWritten transactionHash fee swap swap'
  ∧ Forall2
      (λ old new,
         if decide (Swap.id old = Swap.id swap')
         then lockupWritten transactionHash fee old new
         else new = old)
      (swaps st) (swaps st1)
  ∧ reverseSwaps st1 = reverseSwaps st
  ∧ emitted st1 = emitted st
  ∧ watchers st1 = watchers st.
Proof.
  unfold SwapRepository.setLockupTransaction, SwapRepository.update.
  intros [= <- <-]. split; [by unfold lockupWritten|].
  split; [|done]. simpl. apply Forall2_fmap_r, Forall_Forall2_diag.
  apply Forall_forall. intros row _. simpl.
  by repeat case_decide; unfold lockupWritten.
Qed.

(** *** The conversions of an amount *)

(** The number a native lockup is recorded with exists exactly when
    [etherDecimals] is not zero and the quotient is a safe integer. *)
Lemma etherLocked_safe (values : EtherSwapValues) (locked : Z) :
  etherLocked values = Fulfilled locked
  ↔ etherDecimals ≠ 0
    ∧ locked = amount values `quot` etherDecimals
    ∧ Z.abs locked ≤ BigNumber.MAX_SAFE.
Proof.
  unfold etherLocked, BigNumber.div, BigNumber.toNumber.
  repeat case_decide; split; try done; try (intros [= <-]; done);
    try (intros (? & -> & ?); done); intros (? & ? & ?); by simplify_eq.
Qed.

Lemma etherLocked_steps (values : EtherSwapValues) (locked : Z) :
  etherLocked values = Fulfilled locked →
  ∃ quotient,
    BigNumber.div (amount values) etherDecimals = Fulfilled quotient
    ∧ BigNumber.toNumber quotient = Fulfilled locked.
Proof.
  unfold etherLocked.
  destruct (BigNumber.div _ _) as [quotient|]; [eauto | done].
Qed.

(** *** The two lockup handlers, run on a matching event *)

Lemma listenEtherSwap_lockup_run st transactionHash values locked swap' st1 :
  etherLockupRecorded st transactionHash values locked swap' st1 →
  listenEtherSwap_lockup transactionHash values st
  = match etherVerdict swap' values locked with
    | Fulfilled verdict =>
        emit (verdictEvent swap' (eth_lockup swap' transactionHash values)
                verdict) st1
    | Rejected fault => (Rejected fault, st1)
    end.
Proof.
  intros (swap & Hfound & Hchain
          & (quotient & Hdiv & Hnumber)%etherLocked_steps & Hrecorded).
  unfold listenEtherSwap_lockup, and_then.
  unfold SwapRepository.getSwap in *. simpl in Hfound.
  injection Hfound as ->.
  change (getChainCurrency _ _ _ false) with (lockupChain swap).
  rewrite Hchain, decide_False by (intros Hne; by apply Hne).
  unfold settled. rewrite Hdiv, Hnumber, Hrecorded.
  unfold etherVerdict, etherAddressChecks, etherExpected, amountCheck,
    claimAddressCheck, timelockCheck, firstFailure, verdictEvent.
  destruct (Swap.expectedAmount swap') as [number|]; simpl;
    [destruct (BigNumber.from number) as [converted|fault]; simpl|];
    repeat case_decide; repeat case_bool_decide; simpl;
    first [done | tauto | lia].
Qed.

Lemma listenERC20Swap_lockup_run st transactionHash values erc20Wallet
    locked swap' st1 :
  erc20LockupRecorded st transactionHash values erc20Wallet locked swap' st1 →
  listenERC20Swap_lockup transactionHash values st
  = match erc20Verdict erc20Wallet swap' values locked with
    | Fulfilled verdict =>
        emit (verdictEvent swap' (erc20_lockup swap' transactionHash values)
                verdict) st1
    | Rejected fault => (Rejected fault, st1)
    end.
Proof.
  intros (swap & wallet & Hfound & Hwallet & Htype & -> & Hnumber
          & Hrecorded).
  unfold listenERC20Swap_lockup, and_then.
  unfold SwapRepository.getSwap in *. simpl in Hfound.
  injection Hfound as ->.
  change (getChainCurrency _ _ _ false) with (lockupChain swap).
  rewrite Hwallet, decide_False by (intros Hne; by apply Hne).
  unfold settled. rewrite Hnumber, Hrecorded.
  unfold erc20Verdict, erc20AddressChecks, tokenExpected, amountCheck,
    claimAddressCheck, tokenAddressCheck, timelockCheck, firstFailure,
    verdictEvent.
  destruct (Swap.expectedAmount swap') as [number|]; simpl;
    [destruct (formatTokenAmount _ number) as [expected|fault]; simpl|];
    repeat case_decide; repeat case_bool_decide; simpl;
    first [done | tauto | lia].
Qed.

(** The verdict is the first failure of the whole list of checks when the
    expected amount converts, and otherwise the first failure of the
    checks before the amount, or the fault. *)
Lemma etherVerdict_checks swap values locked expected :
  etherExpected swap = Fulfilled expected →
  etherVerdict swap values locked
  = Fulfilled (firstFailure (etherSwapChecks swap values locked expected)).
Proof.
  intros Hexpected. unfold etherVerdict, etherSwapChecks. rewrite Hexpected.
  unfold etherAddressChecks, claimAddressCheck, timelockCheck, firstFailure.
  simpl. by repeat case_bool_decide.
Qed.

Lemma erc20Verdict_checks erc20Wallet swap (values : ERC20SwapValues) locked
    expected :
  tokenExpected erc20Wallet swap = Fulfilled expected →
  erc20Verdict erc20Wallet swap values locked
  = Fulfilled
      (firstFailure (erc20SwapChecks erc20Wallet swap values locked expected)).
Proof.
  intros Hexpected. unfold erc20Verdict, erc20SwapChecks. rewrite Hexpected.
  unfold erc20AddressChecks, claimAddressCheck, tokenAddressCheck,
    timelockCheck, firstFailure.
  simpl. by repeat case_bool_decide.
Qed.

Lemma etherLockupRecorded_record st transactionHash values locked swap' st1 :
  etherLockupRecorded st transactionHash values locked swap' st1 →
  lockupRecord st transactionHash values locked swap' st1.
Proof.
  intros (swap & [Hrow Hoptions]%getSwap_found & _ & _ & Hrecorded).
  apply setLockupTransaction_written in Hrecorded as (Hwritten & Hrest).
  split; [by exists swap | done].
Qed.

Lemma erc20LockupRecorded_record st transactionHash (values : ERC20SwapValues)
    erc20Wallet locked swap' st1 :
  erc20LockupRecorded st transactionHash values erc20Wallet locked swap' st1 →
  lockupRecord st transactionHash values locked swap' st1.
Proof.
  intros (swap & wallet & [Hrow Hoptions]%getSwap_found & _ & _ & _ & _
          & Hrecorded).
  apply setLockupTransaction_written in Hrecorded as (Hwritten & Hrest).
  split; [by exists swap | done].
Qed.

Lemma lockupRecord_emitted st transactionHash values locked swap' st1 :
  lockupRecord st transactionHash values locked swap' st1 →
  emitted st1 = emitted st.
Proof. unfold lockupRecord. tauto. Qed.

(** C1 (amended).  A lockup event that matches a swap of this chain, and
    whose amount converts to a number, is checked in the order of its
    handler, which stops at the first check that fails: claim address,
    timelock, amount in [listenEtherSwap]; claim address, token address,
    timelock, amount in [listenERC20Swap].  When the expected amount
    converts to the unit of the contract, the handler emits one event on
    the recorded state: [lockup.failed] with the reason of the first
    failing check of that order, or the lockup event of the contract when
    no check fails.  When that conversion faults, the checks before the
    amount still report in their order, and the handler rejects with the
    fault when they pass. *)
Theorem lockup_rejected_with_first_failing_check :
  (∀ st transactionHash (values : EtherSwapValues) locked swap' st1,
     etherLockupRecorded st transactionHash values locked swap' st1 →
     (∀ expected,
        etherExpected swap' = Fulfilled expected →
        listenEtherSwap_lockup transactionHash values st
        = (Fulfilled tt,
           with_emitted st1
             (emitted st
              ++ [match firstFailure
                          (etherSwapChecks swap' values locked expected) with
                  | Some reason => lockup_failed swap' reason
                  | None => eth_lockup swap' transactionHash values
                  end])))
     ∧ (∀ fault,
          etherExpected swap' = Rejected fault →
          listenEtherSwap_lockup transactionHash values st
          = match firstFailure (etherAddressChecks swap' values) with
            | Some reason =>
                (Fulfilled tt,
                 with_emitted st1
                   (emitted st ++ [lockup_failed swap' reason]))
            | None => (Rejected fault, st1)
            end))
  ∧ (∀ st transactionHash (values : ERC20SwapValues) erc20Wallet locked
       swap' st1,
       erc20LockupRecorded st transactionHash values erc20Wallet locked
         swap' st1 →
       (∀ expected,
          tokenExpected erc20Wallet swap' = Fulfilled expected →
          listenERC20Swap_lockup transactionHash values st
          = (Fulfilled tt,
             with_emitted st1
               (emitted st
                ++ [match firstFailure
                            (erc20SwapChecks erc20Wallet swap' values locked
                               expected) with
                    | Some reason => lockup_failed swap' reason
                    | None => erc20_lockup swap' transactionHash values
                    end])))
       ∧ (∀ fault,
            tokenExpected erc20Wallet swap' = Rejected fault →
            listenERC20Swap_lockup transactionHash values st
            = match firstFailure
                      (erc20AddressChecks erc20Wallet swap' values) with
              | Some reason =>
                  (Fulfilled tt,
                   with_emitted st1
                     (emitted st ++ [lockup_failed swap' reason]))
              | None => (Rejected fault, st1)
              end)).
Proof.
  split.
  - intros st transactionHash values locked swap' st1 Hrecorded.
    rewrite (listenEtherSwap_lockup_run _ _ _ _ _ _ Hrecorded).
    apply etherLockupRecorded_record, lockupRecord_emitted in Hrecorded.
    rewrite <- Hrecorded. split.
    + intros expected Hexpected.
      rewrite (etherVerdict_checks _ _ _ _ Hexpected), emit_run.
      unfold verdictEvent. by destruct (firstFailure _).
    + intros fault Hfault. unfold etherVerdict. rewrite Hfault.
      by destruct (firstFailure _).
  - intros st transactionHash values erc20Wallet locked swap' st1 Hrecorded.
    rewrite (listenERC20Swap_lockup_run _ _ _ _ _ _ _ Hrecorded).
    apply erc20LockupRecorded_record, lockupRecord_emitted in Hrecorded.
    rewrite <- Hrecorded. split.
    + intros expected Hexpected.
      rewrite (erc20Verdict_checks _ _ _ _ _ Hexpected), emit_run.
      unfold verdictEvent. by destruct (firstFailure _).
    + intros fault Hfault. unfold erc20Verdict. rewrite Hfault.
      by destruct (firstFailure _).
Qed.

(** The verdict when the checks before the amount pass. *)
Lemma etherVerdict_amount swap values locked :
  claimAddress values = rskManager_address →
  timelock values = Swap.timeoutBlockHeight swap →
  etherVerdict swap values locked
  = match etherExpected swap with
    | Fulfilled expected =>
        Fulfilled (firstFailure [amountCheck swap values locked expected])
    | Rejected fault => Rejected fault
    end.
Proof.
  intros Hclaim Htimelock.
  unfold etherVerdict, etherAddressChecks, claimAddressCheck, timelockCheck,
    firstFailure.
  by rewrite !bool_decide_eq_false_2 by (intros Hne; by apply Hne).
Qed.

Lemma erc20Verdict_amount erc20Wallet swap (values : ERC20SwapValues)
    locked :
  claimAddress values = rskManager_address →
  tokenAddress values = getTokenAddress erc20Wallet →
  timelock values = Swap.timeoutBlockHeight swap →
  erc20Verdict erc20Wallet swap values locked
  = match tokenExpected erc20Wallet swap with
    | Fulfilled expected =>
        Fulfilled (firstFailure [amountCheck swap values locked expected])
    | Rejected fault => Rejected fault
    end.
Proof.
  intros Hclaim Htoken Htimelock.
  unfold erc20Verdict, erc20AddressChecks, claimAddressCheck,
    tokenAddressCheck, timelockCheck, firstFailure.
  by rewrite !bool_decide_eq_false_2 by (intros Hne; by apply Hne).
Qed.

Lemma emitted_one_inj st1 (events : list NurseryEvent) first second :
  (Fulfilled tt, with_emitted st1 (events ++ [first]))
  = (Fulfilled tt, with_emitted st1 (events ++ [second])) →
  first = second.
Proof.
  intros [= Hevents]. apply app_inv_head in Hevents. by injection Hevents.
Qed.

(** A native lockup whose amount does not convert to a number rejects the
    handler before anything is recorded. *)
Lemma listenEtherSwap_lockup_fault st transactionHash values swap fault :
  (SwapRepository.getSwap (lockupOptions values) st).1
    = Fulfilled (Some swap) →
  lockupChain swap = "RBTC" →
  etherLocked values = Rejected fault →
  listenEtherSwap_lockup transactionHash values st = (Rejected fault, st).
Proof.
  intros Hfound Hchain Hfault.
  unfold listenEtherSwap_lockup, and_then.
  unfold SwapRepository.getSwap in *. simpl in Hfound.
  injection Hfound as ->.
  change (getChainCurrency _ _ _ false) with (lockupChain swap).
  rewrite Hchain, decide_False by (intros Hne; by apply Hne).
  unfold settled, etherLocked in *.
  destruct (BigNumber.div _ _) as [quotient|]; [|by simplify_eq].
  by rewrite Hfault.
Qed.

Lemma listenERC20Swap_lockup_fault st transactionHash
    (values : ERC20SwapValues) swap wallet fault :
  (SwapRepository.getSwap (lockupOptions values) st).1
    = Fulfilled (Some swap) →
  walletManager_wallets !! lockupChain swap = Some wallet →
  Wallet.type wallet = ERC20 →
  normalizeTokenAmount (Wallet.walletProvider wallet) (amount values)
    = Rejected fault →
  listenERC20Swap_lockup transactionHash values st = (Rejected fault, st).
Proof.
  intros Hfound Hwallet Htype Hfault.
  unfold listenERC20Swap_lockup, and_then.
  unfold SwapRepository.getSwap in *. simpl in Hfound.
  injection Hfound as ->.
  change (getChainCurrency _ _ _ false) with (lockupChain swap).
  rewrite Hwallet, decide_False by (intros Hne; by apply Hne).
  unfold settled. by rewrite Hfault.
Qed.

(** C3 (amended).  When a lockup event matches a swap of this chain and
    its amount converts to a number, the handler records the lockup
    first: the instance and the rows of its primary key carry the hash of
    the event as [lockupTransactionId], that number as [minerFee] and the
    status [transaction.mempool], and nothing else changes.  When a check
    then fails, the handler ends on the recorded tables with one more
    event, [lockup.failed] with the recorded swap and the reason; no
    lockup event of the contract is emitted and the status stays
    [transaction.mempool].  When the amount does not convert, the handler
    rejects and nothing is recorded. *)
Theorem lockup_recorded_before_validation :
  (∀ st transactionHash (values : EtherSwapValues) locked swap' st1,
     etherLockupRecorded st transactionHash values locked swap' st1 →
     lockupRecord st transactionHash values locked swap' st1
     ∧ (∀ reason,
          firstFailure (etherAddressChecks swap' values) = Some reason →
          listenEtherSwap_lockup transactionHash values st
          = (Fulfilled tt,
             with_emitted st1 (emitted st ++ [lockup_failed swap' reason])))
     ∧ (∀ expected reason,
          etherExpected swap' = Fulfilled expected →
          firstFailure (etherSwapChecks swap' values locked expected)
            = Some reason →
          listenEtherSwap_lockup transactionHash values st
          = (Fulfilled tt,
             with_emitted st1 (emitted st ++ [lockup_failed swap' reason]))))
  ∧ (∀ st transactionHash (values : EtherSwapValues) swap fault,
       (SwapRepository.getSwap (lockupOptions values) st).1
         = Fulfilled (Some swap) →
       lockupChain swap = "RBTC" →
       etherLocked values = Rejected fault →
       listenEtherSwap_lockup transactionHash values st
       = (Rejected fault, st))
  ∧ (∀ st transactionHash (values : ERC20SwapValues) erc20Wallet locked
       swap' st1,
       erc20LockupRecorded st transactionHash values erc20Wallet locked
         swap' st1 →
       lockupRecord st transactionHash values locked swap' st1
       ∧ (∀ reason,
            firstFailure (erc20AddressChecks erc20Wallet swap' values)
              = Some reason →
            listenERC20Swap_lockup transactionHash values st
            = (Fulfilled tt,
               with_emitted st1
                 (emitted st ++ [lockup_failed swap' reason])))
       ∧ (∀ expected reason,
            tokenExpected erc20Wallet swap' = Fulfilled expected →
            firstFailure
              (erc20SwapChecks erc20Wallet swap' values locked expected)
              = Some reason →
            listenERC20Swap_lockup transactionHash values st
            = (Fulfilled tt,
               with_emitted st1
                 (emitted st ++ [lockup_failed swap' reason]))))
  ∧ (∀ st transactionHash (values : ERC20SwapValues) swap wallet fault,
       (SwapRepository.getSwap (lockupOptions values) st).1
         = Fulfilled (Some swap) →
       walletManager_wallets !! lockupChain swap = Some wallet →
       Wallet.type wallet = ERC20 →
       normalizeTokenAmount (Wallet.walletProvider wallet) (amount values)
         = Rejected fault →
       listenERC20Swap_lockup transactionHash values st
       = (Rejected fault, st)).
Proof.
  split; [|split; [|split]].
  - intros st transactionHash values locked swap' st1 Hrecorded.
    pose proof (etherLockupRecorded_record _ _ _ _ _ _ Hrecorded) as Hrecord.
    rewrite (listenEtherSwap_lockup_run _ _ _ _ _ _ Hrecorded).
    rewrite <- (lockupRecord_emitted _ _ _ _ _ _ Hrecord).
    split; [done|]. split.
    + intros reason Hreason. unfold etherVerdict. by rewrite Hreason.
    + intros expected reason Hexpected Hreason.
      by rewrite (etherVerdict_checks _ _ _ _ Hexpected), Hreason.
  - apply listenEtherSwap_lockup_fault.
  - intros st transactionHash values erc20Wallet locked swap' st1 Hrecorded.
    pose proof (erc20LockupRecorded_record _ _ _ _ _ _ _ Hrecorded)
      as Hrecord.
    rewrite (listenERC20Swap_lockup_run _ _ _ _ _ _ _ Hrecorded).
    rewrite <- (lockupRecord_emitted _ _ _ _ _ _ Hrecord).
    split; [done|]. split.
    + intros reason Hreason. unfold erc20Verdict. by rewrite Hreason.
    + intros expected reason Hexpected Hreason.
      by rewrite (erc20Verdict_checks _ _ _ _ _ Hexpected), Hreason.
  - apply listenERC20Swap_lockup_fault.
Qed.

(** [BigNumber.from] is fulfilled exactly for a whole number between the
    two bounds, with that number. *)
Lemma BigNumber_from_whole (number : Q) (converted : Z) :
  BigNumber.from number = Fulfilled converted →
  Qeq number (inject_Z converted)
  ∧ - BigNumber.MAX_SAFE < converted < BigNumber.MAX_SAFE.
Proof.
  unfold BigNumber.from. repeat case_decide; try done. intros [= <-].
  split; [|lia]. unfold Qeq. simpl.
  assert (Hwhole : Qnum number `mod` Z.pos (Qden number) = 0)
    by (destruct (decide (Qnum number `mod` Z.pos (Qden number) = 0)); tauto).
  pose proof (Z.div_mod (Qnum number) (Z.pos (Qden number))). lia.
Qed.

(** C7 (amended).  When a lockup event matches a swap of this chain whose
    expected amount is set, the amount converts to a number and the
    checks before the amount pass: if the expected amount is a whole
    number that [BigNumber.from] (for a token, [formatTokenAmount])
    converts, the event is accepted exactly when the amount is at least
    the expected amount in the unit of the contract, the whole number
    times [etherDecimals] for the native asset, compared as integers; a
    smaller amount gives [lockup.failed] with [INSUFFICIENT_AMOUNT], and
    the swap stays in [transaction.mempool].  If the conversion of the
    expected amount faults, the handler rejects after the lockup is
    recorded and emits nothing. *)
Theorem lockup_amount_sufficiency :
  (∀ st transactionHash (values : EtherSwapValues) locked swap' st1 number,
     etherLockupRecorded st transactionHash values locked swap' st1 →
     claimAddress values = rskManager_address →
     timelock values = Swap.timeoutBlockHeight swap' →
     expectedAmountSet swap' number →
     (∀ converted,
        BigNumber.from number = Fulfilled converted →
        Qeq number (inject_Z converted)
        ∧ (converted * etherDecimals ≤ amount values
           ↔ listenEtherSwap_lockup transactionHash values st
             = (Fulfilled tt,
                with_emitted st1
                  (emitted st ++ [eth_lockup swap' transactionHash values])))
        ∧ (amount values < converted * etherDecimals →
           listenEtherSwap_lockup transactionHash values st
           = (Fulfilled tt,
              with_emitted st1
                (emitted st
                 ++ [lockup_failed swap'
                       (Errors.INSUFFICIENT_AMOUNT locked number)]))
           ∧ lockupRecord st transactionHash values locked swap' st1))
     ∧ (∀ fault,
          BigNumber.from number = Rejected fault →
          listenEtherSwap_lockup transactionHash values st
          = (Rejected fault, st1)))
  ∧ (∀ st transactionHash (values : ERC20SwapValues) erc20Wallet locked
       swap' st1 number,
       erc20LockupRecorded st transactionHash values erc20Wallet locked
         swap' st1 →
       claimAddress values = rskManager_address →
       tokenAddress values = getTokenAddress erc20Wallet →
       timelock values = Swap.timeoutBlockHeight swap' →
       expectedAmountSet swap' number →
       (∀ expected,
          formatTokenAmount erc20Wallet number = Fulfilled expected →
          (expected ≤ amount values
           ↔ listenERC20Swap_lockup transactionHash values st
             = (Fulfilled tt,
                with_emitted st1
                  (emitted st
                   ++ [erc20_lockup swap' transactionHash values])))
          ∧ (amount values < expected →
             listenERC20Swap_lockup transactionHash values st
             = (Fulfilled tt,
                with_emitted st1
                  (emitted st
                   ++ [lockup_failed swap'
                         (Errors.INSUFFICIENT_AMOUNT locked number)]))
             ∧ lockupRecord st transactionHash values locked swap' st1))
       ∧ (∀ fault,
            formatTokenAmount erc20Wallet number = Rejected fault →
            listenERC20Swap_lockup transactionHash values st
            = (Rejected fault, st1))).
Proof.
  split.
  - intros st transactionHash values locked swap' st1 number Hrecorded
      Hclaim Htimelock [Hexpected Hset].
    pose proof (etherLockupRecorded_record _ _ _ _ _ _ Hrecorded) as Hrecord.
    rewrite (listenEtherSwap_lockup_run _ _ _ _ _ _ Hrecorded),
      etherVerdict_amount by done.
    rewrite <- (lockupRecord_emitted _ _ _ _ _ _ Hrecord).
    unfold etherExpected, amountCheck. rewrite Hexpected.
    rewrite decide_False by done. split.
    + intros converted Hconverted. rewrite Hconverted. simpl.
      split; [by apply BigNumber_from_whole|].
      rewrite emit_run. unfold verdictEvent.
      case_bool_decide as Hshort.
      * split; [split; [lia|] | done].
        intros Hsame. by apply emitted_one_inj in Hsame.
      * split; [split; [done | lia] | lia].
    + intros fault Hfault. by rewrite Hfault.
  - intros st transactionHash values erc20Wallet locked swap' st1 number
      Hrecorded Hclaim Htoken Htimelock [Hexpected Hset].
    pose proof (erc20LockupRecorded_record _ _ _ _ _ _ _ Hrecorded)
      as Hrecord.
    rewrite (listenERC20Swap_lockup_run _ _ _ _ _ _ _ Hrecorded),
      erc20Verdict_amount by done.
    rewrite <- (lockupRecord_emitted _ _ _ _ _ _ Hrecord).
    unfold tokenExpected, amountCheck. rewrite Hexpected.
    rewrite decide_False by done. split.
    + intros expected Hconverted. rewrite Hconverted. simpl.
      rewrite emit_run. unfold verdictEvent.
      case_bool_decide as Hshort.
      * split; [split; [lia|] | done].
        intros Hsame. by apply emitted_one_inj in Hsame.
      * split; [split; [done | lia] | lia].
    + intros fault Hfault. by rewrite Hfault.
Qed.

(** C9 (amended).  When a lockup event matches a swap of this chain whose
    expected amount is missing or 0, and the amount of the event converts
    to a number, the amount is not compared at all: if the other checks
    pass, the lockup event of the contract is emitted, whatever the
    amount is, zero included. *)
Theorem lockup_falsy_expected_amount_accepted :
  (∀ st transactionHash (values : EtherSwapValues) locked swap' st1,
     etherLockupRecorded st transactionHash values locked swap' st1 →
     claimAddress values = rskManager_address →
     timelock values = Swap.timeoutBlockHeight swap' →
     Swap.expectedAmount swap' = None
     ∨ (∃ number, Swap.expectedAmount swap' = Some number
                  ∧ Qnum number = 0) →
     listenEtherSwap_lockup transactionHash values st
     = (Fulfilled tt,
        with_emitted st1
          (emitted st ++ [eth_lockup swap' transactionHash values])))
  ∧ (∀ st transactionHash (values : ERC20SwapValues) erc20Wallet locked
       swap' st1,
       erc20LockupRecorded st transactionHash values erc20Wallet locked
         swap' st1 →
       claimAddress values = rskManager_address →
       tokenAddress values = getTokenAddress erc20Wallet →
       timelock values = Swap.timeoutBlockHeight swap' →
       Swap.expectedAmount swap' = None
       ∨ (∃ number, Swap.expectedAmount swap' = Some number
                    ∧ Qnum number = 0) →
       listenERC20Swap_lockup transactionHash values st
       = (Fulfilled tt,
          with_emitted st1
            (emitted st ++ [erc20_lockup swap' transactionHash values]))).
Proof.
  split.
  - intros st transactionHash values locked swap' st1 Hrecorded Hclaim
      Htimelock Hfalsy.
    pose proof (etherLockupRecorded_record _ _ _ _ _ _ Hrecorded) as Hrecord.
    rewrite (listenEtherSwap_lockup_run _ _ _ _ _ _ Hrecorded),
      etherVerdict_amount by done.
    rewrite <- (lockupRecord_emitted _ _ _ _ _ _ Hrecord).
    unfold etherExpected.
    destruct Hfalsy as [-> | (number & -> & Hzero)]; [done|].
    by rewrite decide_True.
  - intros st transactionHash values erc20Wallet locked swap' st1 Hrecorded
      Hclaim Htoken Htimelock Hfalsy.
    pose proof (erc20LockupRecorded_record _ _ _ _ _ _ _ Hrecorded)
      as Hrecord.
    rewrite (listenERC20Swap_lockup_run _ _ _ _ _ _ _ Hrecorded),
      erc20Verdict_amount by done.
    rewrite <- (lockupRecord_emitted _ _ _ _ _ _ Hrecord).
    unfold tokenExpected.
    destruct Hfalsy as [-> | (number & -> & Hzero)]; [done|].
    by rewrite decide_True.
Qed.
(** C4.  The lookup of a lockup handler returns only a swap of the table
    whose [preimageHash] is the one of the event and whose status is
    [swap.created] or [invoice.set].  When no swap is like that, in
    particular when every swap with this hash is already in
    [transaction.mempool], both handlers leave the state as it is: no
    write to a repository and no event. *)
Theorem lockup_without_matching_swap_is_noop st (values : EtherSwapValues) :
  (∀ swap,
     (SwapRepository.getSwap (lockupOptions values) st).1
       = Fulfilled (Some swap) →
     swap ∈ swaps st
     ∧ Swap.preimageHash swap = getHexString (preimageHash values)
     ∧ (Swap.status swap = SwapCreated ∨ Swap.status swap = InvoiceSet))
  ∧ ((∀ row, row ∈ swaps st →
        Swap.preimageHash row = getHexString (preimageHash values) →
        Swap.status row ≠ SwapCreated ∧ Swap.status row ≠ InvoiceSet) →
     ∀ transactionHash,
       listenEtherSwap_lockup transactionHash values st = (Fulfilled tt, st)
       ∧ ∀ token,
           listenERC20Swap_lockup transactionHash
             {| etherSwapValues_of := values; tokenAddress := token |} st
           = (Fulfilled tt, st))
  ∧ ((∀ row, row ∈ swaps st →
        Swap.preimageHash row = getHexString (preimageHash values) →
        Swap.status row = TransactionMempool) →
     ∀ transactionHash,
       listenEtherSwap_lockup transactionHash values st = (Fulfilled tt, st)
       ∧ ∀ token,
           listenERC20Swap_lockup transactionHash
             {| etherSwapValues_of := values; tokenAddress := token |} st
           = (Fulfilled tt, st)).
Proof.
  assert (Hnoop :
    (∀ row, row ∈ swaps st →
       Swap.preimageHash row = getHexString (preimageHash values) →
       Swap.status row ≠ SwapCreated ∧ Swap.status row ≠ InvoiceSet) →
    ∀ transactionHash,
      listenEtherSwap_lockup transactionHash values st = (Fulfilled tt, st)
      ∧ ∀ token,
          listenERC20Swap_lockup transactionHash
            {| etherSwapValues_of := values; tokenAddress := token |} st
          = (Fulfilled tt, st)).
  { intros Hnone transactionHash.
    assert (Hmiss : ∀ row, row ∈ swaps st → ¬ lockupOptions values row).
    { intros row Hrow [Hhash Hstatus].
      destruct (Hnone row Hrow Hhash). tauto. }
    split; [|intros token];
      unfold listenEtherSwap_lockup, listenERC20Swap_lockup, and_then;
      cbn [etherSwapValues_of]; by rewrite (getSwap_none _ _ Hmiss). }
  split_and!.
  - intros swap Hfound. apply getSwap_found in Hfound as [Hrow Hoptions].
    destruct Hoptions. tauto.
  - exact Hnoop.
  - intros Hmempool. apply Hnoop. intros row Hrow Hhash.
    rewrite (Hmempool row Hrow Hhash). done.
Qed.

(** *** The claim handlers *)


Lemma getReverseSwap_none (options : ReverseSwap.t → Prop)
    `{!∀ row, Decision (options row)} st :
  (∀ row, row ∈ reverseSwaps st → ¬ options row) →
  ReverseSwapRepository.getReverseSwap options st = (Fulfilled None, st).
Proof.
  intros Hnone. unfold ReverseSwapRepository.getReverseSwap.
  replace (list_find options (reverseSwaps st))
    with (@None (nat * ReverseSwap.t)); [done|].
  symmetry. apply list_find_None, Forall_forall. exact Hnone.
Qed.


(** *** The block scan and the recovery at startup *)

Lemma with_emitted_same st : with_emitted st (emitted st) = st.
Proof. by destruct st. Qed.

Lemma with_watchers_same st : with_watchers st (watchers st) = st.
Proof. by destruct st. Qed.

Lemma getEthereumWallet_Some symbol wallet :
  getEthereumWallet symbol = Some wallet
  ↔ walletManager_wallets !! symbol = Some wallet
    ∧ (Wallet.type wallet = Rbtc ∨ Wallet.type wallet = ERC20).
Proof.
  unfold getEthereumWallet.
  destruct (walletManager_wallets !! symbol) as [found|];
    [|by split; [|intros []]].
  case_decide as Htype; split.
  - by intros [= <-].
  - by intros [[= <-] _].
  - done.
  - intros [[= <-] ?]. tauto.
Qed.

Lemma expiry_loop (expirable : list ReverseSwap.t) st :
  for_of expirable
    (λ expirableReverseSwap,
       match getEthereumWallet (sendingChain expirableReverseSwap) with
       | Some wallet =>
           emit (reverseSwap_expired expirableReverseSwap
                   (bool_decide (Wallet.symbol wallet = "RBTC")))
       | None => resolve tt
       end) st
  = (Fulfilled tt,
     with_emitted st (emitted st ++ expiredEvents expirable)).
Proof.
  revert st. induction expirable as [|first rest IH]; intros st.
  - simpl. by rewrite app_nil_r, with_emitted_same.
  - cbn [for_of]. unfold and_then at 1. cbv beta.
    unfold expiredEvents. cbn [omap list_omap].
    destruct (getEthereumWallet (sendingChain first)) as [wallet|].
    + rewrite emit_run, IH. unfold expiredEvents. simpl.
      by rewrite <- app_assoc.
    + unfold resolve. by rewrite IH.
Qed.

Lemma init_loop (mempoolReverseSwaps : list ReverseSwap.t) st :
  for_of mempoolReverseSwaps
    (λ mempoolReverseSwap,
       match getEthereumWallet (sendingChain mempoolReverseSwap) with
       | None => resolve tt
       | Some _ =>
           catch
             (await transaction ←
                settled
                  (provider_getTransaction
                     (ReverseSwap.transactionId mempoolReverseSwap));
              listenContractTransaction mempoolReverseSwap transaction)
             (λ _, resolve tt)
       end) st
  = (Fulfilled tt,
     with_watchers st (watchers st ++ attached mempoolReverseSwaps)).
Proof.
  revert st. induction mempoolReverseSwaps as [|first rest IH]; intros st.
  - simpl. by rewrite app_nil_r, with_watchers_same.
  - cbn [for_of]. unfold and_then at 1. cbv beta.
    unfold attached. cbn [omap list_omap].
    destruct (getEthereumWallet (sendingChain first)) as [wallet|].
    + unfold catch, and_then, settled, listenContractTransaction.
      destruct (provider_getTransaction (ReverseSwap.transactionId first))
        as [transaction|reason].
      * rewrite IH. unfold attached. simpl. by rewrite <- app_assoc.
      * unfold resolve. by rewrite IH.
    + unfold resolve. by rewrite IH.
Qed.

(** C2.  At every height the expiry scan of the reverse swaps fetches
    exactly the rows whose status is none of [swap.expired],
    [transaction.failed], [transaction.refunded], [invoice.settled] and
    [transaction.mempool] and whose [timeoutBlockHeight] is at most the
    height; it emits [reverseSwap.expired] for fetched rows only, so never
    for a reverse swap in [transaction.mempool], however old its
    timeout. *)
Theorem reverse_swap_expiry_skips_mempool st (height : Z) :
  ∃ expirable,
    ReverseSwapRepository.getReverseSwapsExpirable height st
      = (Fulfilled expirable, st)
    ∧ (∀ reverseSwap,
         reverseSwap ∈ expirable
         ↔ reverseSwap ∈ reverseSwaps st
           ∧ (ReverseSwap.status reverseSwap ∉
                [SwapExpired; TransactionFailed; TransactionRefunded;
                 InvoiceSettled; TransactionMempool])
           ∧ ReverseSwap.timeoutBlockHeight reverseSwap ≤ height)
    ∧ checkExpiredReverseSwaps height st
      = (Fulfilled tt,
         with_emitted st (emitted st ++ expiredEvents expirable))
    ∧ (∀ event, event ∈ expiredEvents expirable →
         ∃ reverseSwap isEtherSwap,
           event = reverseSwap_expired reverseSwap isEtherSwap
           ∧ reverseSwap ∈ expirable
           ∧ ReverseSwap.status reverseSwap ≠ TransactionMempool).
Proof.
  eexists. split; [reflexivity|]. split_and!.
  - intros reverseSwap. rewrite list_elem_of_filter. tauto.
  - unfold checkExpiredReverseSwaps, and_then.
    unfold ReverseSwapRepository.getReverseSwapsExpirable,
      ReverseSwapRepository.getReverseSwaps.
    apply expiry_loop.
  - intros event Hevent. unfold expiredEvents in Hevent.
    apply list_elem_of_omap in Hevent as (reverseSwap & Hin & Hsome).
    destruct (getEthereumWallet (sendingChain reverseSwap)) as [wallet|];
      simplify_eq.
    eexists _, _. split_and!; [done | done |].
    apply list_elem_of_filter in Hin as [[Hstatus _] _].
    intros Hmempool. apply Hstatus. rewrite Hmempool.
    unfold TransactionMempool. set_solver.
Qed.

(** C8.  [init] goes through exactly the reverse swaps whose status is
    [transaction.mempool].  It attaches a confirmation watcher to those,
    and only those, whose sending chain resolves to a wallet of type
    [Rbtc] or [ERC20] and whose lockup transaction the provider returns;
    a reverse swap whose lookup is rejected gets no watcher.  [init]
    itself writes to no table and emits no event. *)
Theorem init_attaches_watchers st :
  ∃ mempoolReverseSwaps,
    ReverseSwapRepository.getReverseSwaps
      (λ row, ReverseSwap.status row = TransactionMempool) st
      = (Fulfilled mempoolReverseSwaps, st)
    ∧ (∀ reverseSwap,
         reverseSwap ∈ mempoolReverseSwaps
         ↔ reverseSwap ∈ reverseSwaps st
           ∧ ReverseSwap.status reverseSwap = TransactionMempool)
    ∧ init st
      = (Fulfilled tt,
         with_watchers st (watchers st ++ attached mempoolReverseSwaps))
    ∧ (∀ reverseSwap transaction,
         (reverseSwap, transaction) ∈ attached mempoolReverseSwaps
         ↔ reverseSwap ∈ mempoolReverseSwaps
           ∧ (∃ wallet,
                walletManager_wallets !! sendingChain reverseSwap
                  = Some wallet
                ∧ (Wallet.type wallet = Rbtc ∨ Wallet.type wallet = ERC20))
           ∧ provider_getTransaction (ReverseSwap.transactionId reverseSwap)
             = Fulfilled transaction)
    ∧ (∀ reverseSwap reason transaction,
         provider_getTransaction (ReverseSwap.transactionId reverseSwap)
           = Rejected reason →
         (reverseSwap, transaction) ∉ attached mempoolReverseSwaps).
Proof.
  eexists. split; [reflexivity|].
  assert (Hattached : ∀ (rows : list ReverseSwap.t) reverseSwap transaction,
    (reverseSwap, transaction) ∈ attached rows
    ↔ reverseSwap ∈ rows
      ∧ (∃ wallet,
           walletManager_wallets !! sendingChain reverseSwap = Some wallet
           ∧ (Wallet.type wallet = Rbtc ∨ Wallet.type wallet = ERC20))
      ∧ provider_getTransaction (ReverseSwap.transactionId reverseSwap)
        = Fulfilled transaction).
  { intros rows reverseSwap transaction. unfold attached.
    rewrite list_elem_of_omap. split.
    - intros (row & Hrow & Hsome).
      destruct (getEthereumWallet (sendingChain row)) as [wallet|] eqn:Hwallet;
        [|done].
      destruct (provider_getTransaction (ReverseSwap.transactionId row))
        as [found|] eqn:Hlookup; simplify_eq.
      apply getEthereumWallet_Some in Hwallet. eauto.
    - intros (Hrow & (wallet & Hwallet) & Hlookup).
      apply getEthereumWallet_Some in Hwallet.
      exists reverseSwap. by rewrite Hwallet, Hlookup. }
  split_and!.
  - intros reverseSwap. rewrite list_elem_of_filter. tauto.
  - unfold init, and_then. unfold ReverseSwapRepository.getReverseSwaps.
    apply init_loop.
  - apply Hattached.
  - intros reverseSwap reason transaction Hrejected Hin.
    apply Hattached in Hin as (_ & _ & Hlookup). congruence.
Qed.

(** *** The status of a reverse swap *)

Lemma update_run reverseSwap (v : ReverseSwap.values) st :
  ReverseSwapRepository.update reverseSwap v st
  = (Fulfilled (ReverseSwap.set reverseSwap v),
     if decide (ReverseSwap.set reverseSwap v = reverseSwap) then st
     else
       with_reverseSwaps st
         ((λ row,
             if decide (ReverseSwap.id row = ReverseSwap.id reverseSwap)
             then ReverseSwap.set row v else row) <$> reverseSwaps st)).
Proof. reflexivity. Qed.

(** The object [setReverseSwapStatus] gives to [update]. *)
Lemma setReverseSwapStatus_written status failureReason old :
  statusWritten status failureReason old
    (ReverseSwap.set old
       {| ReverseSwap.v_status := Some status;
          ReverseSwap.v_failureReason := failureReason;
          ReverseSwap.v_minerFee := None;
          ReverseSwap.v_transactionId := None;
          ReverseSwap.v_transactionVout := None;
          ReverseSwap.v_preimage := None;
          ReverseSwap.v_rawTx := None |}).
Proof. unfold statusWritten. by destruct failureReason. Qed.

Lemma setReverseSwapStatus_held st reverseSwap status failureReason :
  statusHeld reverseSwap status failureReason →
  ReverseSwapRepository.setReverseSwapStatus
    reverseSwap status failureReason st
  = (Fulfilled reverseSwap, st).
Proof.
  intros [Hstatus Hreason].
  unfold ReverseSwapRepository.setReverseSwapStatus. rewrite update_run.
  match goal with
  | |- context [decide (?new = reverseSwap)] =>
      assert (Hsame : new = reverseSwap)
  end.
  { destruct reverseSwap. simpl in *. subst.
    destruct failureReason as [reason|]; [|done].
    by rewrite (Hreason reason eq_refl). }
  by rewrite Hsame, decide_True.
Qed.

Lemma setReverseSwapStatus_changed st reverseSwap status failureReason :
  ReverseSwap.status reverseSwap ≠ status
  ∨ (∃ reason, failureReason = Some reason
               ∧ ReverseSwap.failureReason reverseSwap ≠ Some reason) →
  ∃ updated st1,
    ReverseSwapRepository.setReverseSwapStatus
      reverseSwap status failureReason st
    = (Fulfilled updated, st1)
    ∧ statusWritten status failureReason reverseSwap updated
    ∧ statusStored st reverseSwap status failureReason st1.
Proof.
  intros Hchanged. eexists _, _.
  unfold ReverseSwapRepository.setReverseSwapStatus. rewrite update_run.
  split; [reflexivity|]. split; [apply setReverseSwapStatus_written|].
  rewrite decide_False.
  - split; [|done]. simpl.
    apply Forall2_fmap_r, Forall_Forall2_diag, Forall_forall.
    intros old _. simpl.
    case_decide; [apply setReverseSwapStatus_written | done].
  - intros Hsame. destruct Hchanged as [Hstatus | (reason & -> & Hreason)].
    + apply Hstatus. by rewrite <- Hsame.
    + apply Hreason. by rewrite <- Hsame.
Qed.

Lemma setReverseSwapStatus_frame st reverseSwap status failureReason
    updated st1 :
  ReverseSwapRepository.setReverseSwapStatus
    reverseSwap status failureReason st
  = (Fulfilled updated, st1) →
  statusFrame st reverseSwap failureReason st1.
Proof.
  unfold ReverseSwapRepository.setReverseSwapStatus. rewrite update_run.
  intros [= _ <-]. case_decide as Hsame.
  - split; [|done]. apply Forall_Forall2_diag, Forall_forall.
    intros old _. by case_decide.
  - split; [|done]. simpl.
    apply Forall2_fmap_r, Forall_Forall2_diag, Forall_forall.
    intros old _. simpl. case_decide; [|done].
    split_and!; try done. by intros ->.
Qed.

Lemma setReverseSwapStatus_set st reverseSwap status :
  ∃ updated st1,
    statusSet st reverseSwap status updated st1
    ∧ emitted st1 = emitted st.
Proof.
  destruct (decide (ReverseSwap.status reverseSwap = status)) as [Hheld|Hnew].
  - exists reverseSwap, st. split; [|done].
    split; [by apply setReverseSwapStatus_held|].
    split_and!; [|done|done].
    destruct reverseSwap. simpl in Hheld. subst. by unfold statusWritten.
  - destruct (setReverseSwapStatus_changed st reverseSwap status None)
      as (updated & st1 & Hrun & Hwritten & Hstored); [by left|].
    exists updated, st1. split; [by split_and!|].
    unfold statusStored in Hstored. tauto.
Qed.

(** C5 (amended).  When the wait of a confirmation watcher is fulfilled,
    the status of the instance it holds is set to [transaction.confirmed]
    and [lockup.confirmed] is emitted with the updated instance and the
    hash of the transaction.  When the wait is rejected, the status is set
    to [transaction.failed] and [lockup.failedToSend] is emitted with the
    updated instance and the reason.  The stored rows of the reverse swap
    get that status when the instance of the watcher did not hold it
    before; when it did, nothing is written.  In every case the watcher
    emits one event, of one of the two kinds. *)
Theorem confirmation_watcher_settles_once st reverseSwap
    (transaction : ContractTransaction) :
  (wait transaction 1 = Fulfilled tt →
   ∃ updated st1,
     statusSet st reverseSwap TransactionConfirmed updated st1
     ∧ listenContractTransaction_settled reverseSwap transaction st
       = (Fulfilled tt,
          with_emitted st1
            (emitted st
             ++ [lockup_confirmed updated (hash transaction)])))
  ∧ (∀ reason,
       wait transaction 1 = Rejected reason →
       ∃ updated st1,
         statusSet st reverseSwap TransactionFailed updated st1
         ∧ listenContractTransaction_settled reverseSwap transaction st
           = (Fulfilled tt,
              with_emitted st1
                (emitted st ++ [lockup_failedToSend updated reason])))
  ∧ (∃ updated st1 event,
       listenContractTransaction_settled reverseSwap transaction st
       = (Fulfilled tt, with_emitted st1 (emitted st ++ [event]))
       ∧ (event = lockup_confirmed updated (hash transaction)
          ∨ ∃ reason, event = lockup_failedToSend updated reason)).
Proof.
  assert (Hconfirmed :
    wait transaction 1 = Fulfilled tt →
    ∃ updated st1,
      statusSet st reverseSwap TransactionConfirmed updated st1
      ∧ listenContractTransaction_settled reverseSwap transaction st
        = (Fulfilled tt,
           with_emitted st1
             (emitted st
              ++ [lockup_confirmed updated (hash transaction)]))).
  { intros Hwait.
    destruct (setReverseSwapStatus_set st reverseSwap TransactionConfirmed)
      as (updated & st1 & Hset & Hemitted).
    exists updated, st1. split; [done|].
    unfold listenContractTransaction_settled, catch, and_then, settled.
    rewrite Hwait. destruct Hset as [-> _]. by rewrite emit_run, Hemitted. }
  assert (Hfailed :
    ∀ reason,
      wait transaction 1 = Rejected reason →
      ∃ updated st1,
        statusSet st reverseSwap TransactionFailed updated st1
        ∧ listenContractTransaction_settled reverseSwap transaction st
          = (Fulfilled tt,
             with_emitted st1
               (emitted st ++ [lockup_failedToSend updated reason]))).
  { intros reason Hwait.
    destruct (setReverseSwapStatus_set st reverseSwap TransactionFailed)
      as (updated & st1 & Hset & Hemitted).
    exists updated, st1. split; [done|].
    unfold listenContractTransaction_settled, catch, and_then, settled.
    rewrite Hwait. destruct Hset as [-> _]. by rewrite emit_run, Hemitted. }
  split; [exact Hconfirmed|]. split; [exact Hfailed|].
  destruct (wait transaction 1) as [[]|reason].
  - destruct (Hconfirmed eq_refl) as (updated & st1 & _ & Hrun).
    exists updated, st1, (lockup_confirmed updated (hash transaction)).
    by split; [|left].
  - destruct (Hfailed reason eq_refl) as (updated & st1 & _ & Hrun).
    exists updated, st1, (lockup_failedToSend updated reason).
    split; [done|]. right. by exists reason.
Qed.

(** C10 (amended).  A call of [setReverseSwapStatus] sets the status on
    the instance it returns, and [failureReason] when the argument is
    given.  When the argument is omitted, as on the path that sets
    [transaction.confirmed], the [failureReason] of the instance and of
    its rows stays as it is: [update] ignores a key whose value is
    [undefined].  The values are written to the rows of the primary key
    when they are new to the instance; when the instance holds them
    already, nothing is written at all.  All other columns ([preimage],
    [minerFee], [transactionId], [rawTx] and the rest), all other rows and
    the rest of the state are unchanged in every case. *)
Theorem setReverseSwapStatus_keeps_omitted_reason st reverseSwap
    (status : string) (failureReason : option string) :
  ∃ updated st1,
    ReverseSwapRepository.setReverseSwapStatus
      reverseSwap status failureReason st
    = (Fulfilled updated, st1)
    ∧ statusWritten status failureReason reverseSwap updated
    ∧ statusFrame st reverseSwap failureReason st1
    ∧ (statusNew reverseSwap status failureReason →
       statusStored st reverseSwap status failureReason st1)
    ∧ (statusHeld reverseSwap status failureReason →
       updated = reverseSwap ∧ st1 = st)
    ∧ (failureReason = None →
       ReverseSwap.failureReason updated
       = ReverseSwap.failureReason reverseSwap).
Proof.
  eexists _, _. split; [reflexivity|].
  split; [apply setReverseSwapStatus_written|].
  split; [by eapply setReverseSwapStatus_frame|].
  split; [|split].
  - intros [Hstatus _].
    destruct (setReverseSwapStatus_changed st reverseSwap status
                failureReason) as (updated & st1 & Hrun & _ & Hstored);
      [by left|].
    unfold ReverseSwapRepository.setReverseSwapStatus in Hrun.
    by injection Hrun as _ ->.
  - intros Hheld.
    pose proof (setReverseSwapStatus_held st _ _ _ Hheld) as Hrun.
    unfold ReverseSwapRepository.setReverseSwapStatus in Hrun.
    by injection Hrun as -> ->.
  - by intros ->.
Qed.
End Properties.
(** * The properties on the concrete nursery *)

#[local] Existing Instance Example.environment.

Import SwapUpdateEvent.

(** C1, as the specification orders the checks, fails on the token
    contract: a lockup with a wrong token address and a wrong timelock is
    rejected for its token address, while the first failing check of the
    specified order is the timelock. *)
Lemma token_address_checked_before_timelock :
  firstFailure
    (specifiedTokenChecks Example.tokenProvider
       (Example.recorded Example.tokenSwap "0xtx" 5)
       Example.wrongTokenAndTimelock 5 (Some (5 * 10 ^ 10)))
  = Some (Errors.INVALID_TIMELOCK 1999 2000)
  ∧ emitted
      (listenERC20Swap_lockup "0xtx" Example.wrongTokenAndTimelock
         Example.state).2
    = [lockup_failed (Example.recorded Example.tokenSwap "0xtx" 5)
         (Errors.INVALID_TOKEN_LOCKED "0x0THER" "0xNURSERY")]
  ∧ emitted
      (listenERC20Swap_lockup "0xtx" Example.wrongTokenAndTimelock
         Example.state).2
    ≠ [lockup_failed (Example.recorded Example.tokenSwap "0xtx" 5)
         (Errors.INVALID_TIMELOCK 1999 2000)].
Proof. split_and!; [reflexivity | reflexivity | discriminate]. Qed.

Lemma lockup_rejected_with_first_failing_check_witness :
  (etherLockupRecorded Example.state "0xtx" Example.etherShort 1
     (Example.recorded Example.etherSwap "0xtx" 1)
     (Example.recordedState Example.etherSwap "0xtx" 1)
   ∧ etherExpected (Example.recorded Example.etherSwap "0xtx" 1)
     = Fulfilled (Some (2 * 10 ^ 18))
   ∧ listenEtherSwap_lockup "0xtx" Example.etherShort Example.state
     = (Fulfilled tt,
        with_emitted (Example.recordedState Example.etherSwap "0xtx" 1)
          [lockup_failed (Example.recorded Example.etherSwap "0xtx" 1)
             (Errors.INSUFFICIENT_AMOUNT 1 2%Q)]))
  ∧ (etherLockupRecorded MoreExamples.fractionState "0xtx"
       MoreExamples.fractionShort 0
       (Example.recorded MoreExamples.fractionSwap "0xtx" 0)
       MoreExamples.fractionRecorded
     ∧ etherExpected (Example.recorded MoreExamples.fractionSwap "0xtx" 0)
       = Rejected "underflow"
     ∧ listenEtherSwap_lockup "0xtx" MoreExamples.fractionShort
         MoreExamples.fractionState
       = (Rejected "underflow", MoreExamples.fractionRecorded))
  ∧ (erc20LockupRecorded Example.state "0xtx" Example.wrongTokenAndTimelock
       Example.tokenProvider 5
       (Example.recorded Example.tokenSwap "0xtx" 5)
       (Example.recordedState Example.tokenSwap "0xtx" 5)
     ∧ tokenExpected Example.tokenProvider
         (Example.recorded Example.tokenSwap "0xtx" 5)
       = Fulfilled (Some (5 * 10 ^ 10))
     ∧ listenERC20Swap_lockup "0xtx" Example.wrongTokenAndTimelock
         Example.state
       = (Fulfilled tt,
          with_emitted (Example.recordedState Example.tokenSwap "0xtx" 5)
            [lockup_failed (Example.recorded Example.tokenSwap "0xtx" 5)
               (Errors.INVALID_TOKEN_LOCKED "0x0THER" "0xNURSERY")])).
Proof.
  split; [|split].
  - assert (Hrecorded :
      etherLockupRecorded Example.state "0xtx" Example.etherShort 1
        (Example.recorded Example.etherSwap "0xtx" 1)
        (Example.recordedState Example.etherSwap "0xtx" 1))
      by (exists Example.etherSwap; split_and!; reflexivity).
    assert (Hexpected :
      etherExpected (Example.recorded Example.etherSwap "0xtx" 1)
      = Fulfilled (Some (2 * 10 ^ 18))) by reflexivity.
    refine (conj Hrecorded (conj Hexpected _)).
    exact (proj1 (proj1 lockup_rejected_with_first_failing_check
                    _ _ _ _ _ _ Hrecorded) _ Hexpected).
  - assert (Hrecorded :
      etherLockupRecorded MoreExamples.fractionState "0xtx"
        MoreExamples.fractionShort 0
        (Example.recorded MoreExamples.fractionSwap "0xtx" 0)
        MoreExamples.fractionRecorded)
      by (exists MoreExamples.fractionSwap; split_and!; reflexivity).
    assert (Hfault :
      etherExpected (Example.recorded MoreExamples.fractionSwap "0xtx" 0)
      = Rejected "underflow") by reflexivity.
    refine (conj Hrecorded (conj Hfault _)).
    exact (proj2 (proj1 lockup_rejected_with_first_failing_check
                    _ _ _ _ _ _ Hrecorded) _ Hfault).
  - assert (Hrecorded :
      erc20LockupRecorded Example.state "0xtx" Example.wrongTokenAndTimelock
        Example.tokenProvider 5
        (Example.recorded Example.tokenSwap "0xtx" 5)
        (Example.recordedState Example.tokenSwap "0xtx" 5)).
    { exists Example.tokenSwap. eexists. split_and!; reflexivity. }
    assert (Hexpected :
      tokenExpected Example.tokenProvider
        (Example.recorded Example.tokenSwap "0xtx" 5)
      = Fulfilled (Some (5 * 10 ^ 10))) by reflexivity.
    refine (conj Hrecorded (conj Hexpected _)).
    exact (proj1 (proj2 lockup_rejected_with_first_failing_check
                    _ _ _ _ _ _ _ Hrecorded) _ Hexpected).
Defined.

(** C3, as stated, fails on a lockup of more coins than a number holds:
    the event matches a swap of this chain and has the claim address of
    someone else, but the handler rejects on the conversion of the amount,
    before it records anything; the swap is not touched and no
    [lockup.failed] is emitted. *)
Lemma unsafe_amount_is_not_recorded :
  (SwapRepository.getSwap (lockupOptions MoreExamples.etherUnsafe)
     Example.state).1
  = Fulfilled (Some Example.etherSwap)
  ∧ lockupChain Example.etherSwap = "RBTC"
  ∧ firstFailure
      (etherAddressChecks Example.etherSwap MoreExamples.etherUnsafe)
    = Some (Errors.INVALID_CLAIM_ADDRESS "0xS0ME0NE" "0xNURSERY")
  ∧ listenEtherSwap_lockup "0xtx" MoreExamples.etherUnsafe Example.state
    = (Rejected "overflow", Example.state)
  ∧ Swap.status Example.etherSwap = SwapCreated
  ∧ emitted Example.state = [].
Proof. split_and!; reflexivity. Qed.

Lemma lockup_recorded_before_validation_witness :
  (etherLockupRecorded Example.state "0xtx" Example.etherForSomeoneElse 3
     (Example.recorded Example.etherSwap "0xtx" 3)
     (Example.recordedState Example.etherSwap "0xtx" 3)
   ∧ firstFailure
       (etherAddressChecks (Example.recorded Example.etherSwap "0xtx" 3)
          Example.etherForSomeoneElse)
     = Some (Errors.INVALID_CLAIM_ADDRESS "0xS0ME0NE" "0xNURSERY")
   ∧ lockupRecord Example.state "0xtx" Example.etherForSomeoneElse 3
       (Example.recorded Example.etherSwap "0xtx" 3)
       (Example.recordedState Example.etherSwap "0xtx" 3)
   ∧ listenEtherSwap_lockup "0xtx" Example.etherForSomeoneElse Example.state
     = (Fulfilled tt,
        with_emitted (Example.recordedState Example.etherSwap "0xtx" 3)
          [lockup_failed (Example.recorded Example.etherSwap "0xtx" 3)
             (Errors.INVALID_CLAIM_ADDRESS "0xS0ME0NE" "0xNURSERY")]))
  ∧ (etherLocked MoreExamples.etherUnsafe = Rejected "overflow"
     ∧ listenEtherSwap_lockup "0xtx" MoreExamples.etherUnsafe Example.state
       = (Rejected "overflow", Example.state))
  ∧ (erc20LockupRecorded Example.state "0xtx" Example.tokenShort
       Example.tokenProvider 4
       (Example.recorded Example.tokenSwap "0xtx" 4)
       (Example.recordedState Example.tokenSwap "0xtx" 4)
     ∧ tokenExpected Example.tokenProvider
         (Example.recorded Example.tokenSwap "0xtx" 4)
       = Fulfilled (Some (5 * 10 ^ 10))
     ∧ firstFailure
         (erc20SwapChecks Example.tokenProvider
            (Example.recorded Example.tokenSwap "0xtx" 4)
            Example.tokenShort 4 (Some (5 * 10 ^ 10)))
       = Some (Errors.INSUFFICIENT_AMOUNT 4 5%Q)
     ∧ listenERC20Swap_lockup "0xtx" Example.tokenShort Example.state
       = (Fulfilled tt,
          with_emitted (Example.recordedState Example.tokenSwap "0xtx" 4)
            [lockup_failed (Example.recorded Example.tokenSwap "0xtx" 4)
               (Errors.INSUFFICIENT_AMOUNT 4 5%Q)])).
Proof.
  split; [|split].
  - assert (Hrecorded :
      etherLockupRecorded Example.state "0xtx" Example.etherForSomeoneElse 3
        (Example.recorded Example.etherSwap "0xtx" 3)
        (Example.recordedState Example.etherSwap "0xtx" 3))
      by (exists Example.etherSwap; split_and!; reflexivity).
    assert (Hfails :
      firstFailure
        (etherAddressChecks (Example.recorded Example.etherSwap "0xtx" 3)
           Example.etherForSomeoneElse)
      = Some (Errors.INVALID_CLAIM_ADDRESS "0xS0ME0NE" "0xNURSERY"))
      by reflexivity.
    destruct (proj1 lockup_recorded_before_validation _ _ _ _ _ _ Hrecorded)
      as (Hrecord & Haddress & _).
    exact (conj Hrecorded (conj Hfails (conj Hrecord (Haddress _ Hfails)))).
  - assert (Hfault : etherLocked MoreExamples.etherUnsafe = Rejected "overflow")
      by reflexivity.
    split; [exact Hfault|].
    exact (proj1 (proj2 lockup_recorded_before_validation)
             Example.state "0xtx" MoreExamples.etherUnsafe Example.etherSwap
             "overflow" eq_refl eq_refl Hfault).
  - assert (Hrecorded :
      erc20LockupRecorded Example.state "0xtx" Example.tokenShort
        Example.tokenProvider 4
        (Example.recorded Example.tokenSwap "0xtx" 4)
        (Example.recordedState Example.tokenSwap "0xtx" 4)).
    { exists Example.tokenSwap. eexists. split_and!; reflexivity. }
    assert (Hexpected :
      tokenExpected Example.tokenProvider
        (Example.recorded Example.tokenSwap "0xtx" 4)
      = Fulfilled (Some (5 * 10 ^ 10))) by reflexivity.
    assert (Hfails :
      firstFailure
        (erc20SwapChecks Example.tokenProvider
           (Example.recorded Example.tokenSwap "0xtx" 4) Example.tokenShort
           4 (Some (5 * 10 ^ 10)))
      = Some (Errors.INSUFFICIENT_AMOUNT 4 5%Q))
      by reflexivity.
    refine (conj Hrecorded (conj Hexpected (conj Hfails _))).
    exact (proj2 (proj2 (proj1 (proj2 (proj2
                                  lockup_recorded_before_validation))
                           _ _ _ _ _ _ _ Hrecorded))
             _ _ Hexpected Hfails).
Defined.

Lemma lockup_without_matching_swap_is_noop_witness :
  ((SwapRepository.getSwap (lockupOptions Example.etherShort)
      Example.state).1
   = Fulfilled (Some Example.etherSwap)
   ∧ Example.etherSwap ∈ swaps Example.state
   ∧ Swap.preimageHash Example.etherSwap = "aabb"
   ∧ (Swap.status Example.etherSwap = SwapCreated
      ∨ Swap.status Example.etherSwap = InvoiceSet))
  ∧ ((∀ row, row ∈ swaps Example.state →
        Swap.preimageHash row
        = getHexString (preimageHash Example.etherReplayed) →
        Swap.status row = TransactionMempool)
     ∧ listenEtherSwap_lockup "0xtx" Example.etherReplayed Example.state
       = (Fulfilled tt, Example.state)
     ∧ listenERC20Swap_lockup "0xtx"
         {| etherSwapValues_of := Example.etherReplayed;
            tokenAddress := "0xT0KEN" |} Example.state
       = (Fulfilled tt, Example.state)).
Proof.
  split.
  - assert (Hfound :
      (SwapRepository.getSwap (lockupOptions Example.etherShort)
         Example.state).1
      = Fulfilled (Some Example.etherSwap)) by reflexivity.
    split; [exact Hfound|].
    exact (proj1 (lockup_without_matching_swap_is_noop
                    Example.state Example.etherShort) _ Hfound).
  - assert (Hmempool :
      ∀ row, row ∈ swaps Example.state →
        Swap.preimageHash row
        = getHexString (preimageHash Example.etherReplayed) →
        Swap.status row = TransactionMempool).
    { intros row Hrow Hhash. simpl in Hrow.
      repeat (apply elem_of_cons in Hrow as [-> | Hrow];
              [first [reflexivity | discriminate Hhash]|]).
      by apply elem_of_nil in Hrow. }
    split; [exact Hmempool|].
    destruct (proj2 (proj2 (lockup_without_matching_swap_is_noop
                              Example.state Example.etherReplayed))
                Hmempool "0xtx") as [Hether Htoken].
    split; [exact Hether | exact (Htoken "0xT0KEN")].
Defined.

(** C7, as stated, fails on the scenario of the specification: a swap
    expects 0.01 and the event locks half of it.  [BigNumber.from] takes
    whole numbers only, so the handler rejects after it has recorded the
    lockup and emits no [lockup.failed]. *)
Lemma fractional_expected_amount_is_not_compared :
  expectedAmountSet (Example.recorded MoreExamples.fractionSwap "0xtx" 0)
    0.01%Q
  ∧ firstFailure
      (etherAddressChecks
         (Example.recorded MoreExamples.fractionSwap "0xtx" 0)
         MoreExamples.fractionShort)
    = None
  ∧ listenEtherSwap_lockup "0xtx" MoreExamples.fractionShort
      MoreExamples.fractionState
    = (Rejected "underflow", MoreExamples.fractionRecorded)
  ∧ emitted MoreExamples.fractionRecorded = [].
Proof. split_and!; [split; [reflexivity | discriminate] | done..]. Qed.

Lemma lockup_amount_sufficiency_witness :
  (etherLockupRecorded Example.state "0xtx" Example.etherShort 1
     (Example.recorded Example.etherSwap "0xtx" 1)
     (Example.recordedState Example.etherSwap "0xtx" 1)
   ∧ expectedAmountSet (Example.recorded Example.etherSwap "0xtx" 1) 2%Q
   ∧ BigNumber.from 2%Q = Fulfilled 2
   ∧ amount Example.etherShort < 2 * 10 ^ 18
   ∧ listenEtherSwap_lockup "0xtx" Example.etherShort Example.state
     = (Fulfilled tt,
        with_emitted (Example.recordedState Example.etherSwap "0xtx" 1)
          [lockup_failed (Example.recorded Example.etherSwap "0xtx" 1)
             (Errors.INSUFFICIENT_AMOUNT 1 2%Q)]))
  ∧ (etherLockupRecorded Example.state "0xtx" Example.etherEnough 2
       (Example.recorded Example.etherSwap "0xtx" 2)
       (Example.recordedState Example.etherSwap "0xtx" 2)
     ∧ 2 * 10 ^ 18 ≤ amount Example.etherEnough
     ∧ listenEtherSwap_lockup "0xtx" Example.etherEnough Example.state
       = (Fulfilled tt,
          with_emitted (Example.recordedState Example.etherSwap "0xtx" 2)
            [eth_lockup (Example.recorded Example.etherSwap "0xtx" 2)
               "0xtx" Example.etherEnough]))
  ∧ (etherLockupRecorded MoreExamples.fractionState "0xtx"
       MoreExamples.fractionShort 0
       (Example.recorded MoreExamples.fractionSwap "0xtx" 0)
       MoreExamples.fractionRecorded
     ∧ BigNumber.from 0.01%Q = Rejected "underflow"
     ∧ listenEtherSwap_lockup "0xtx" MoreExamples.fractionShort
         MoreExamples.fractionState
       = (Rejected "underflow", MoreExamples.fractionRecorded))
  ∧ (erc20LockupRecorded Example.state "0xtx" Example.tokenShort
       Example.tokenProvider 4
       (Example.recorded Example.tokenSwap "0xtx" 4)
       (Example.recordedState Example.tokenSwap "0xtx" 4)
     ∧ formatTokenAmount Example.tokenProvider 5%Q = Fulfilled (5 * 10 ^ 10)
     ∧ amount Example.tokenShort < 5 * 10 ^ 10
     ∧ listenERC20Swap_lockup "0xtx" Example.tokenShort Example.state
       = (Fulfilled tt,
          with_emitted (Example.recordedState Example.tokenSwap "0xtx" 4)
            [lockup_failed (Example.recorded Example.tokenSwap "0xtx" 4)
               (Errors.INSUFFICIENT_AMOUNT 4 5%Q)])).
Proof.
  split; [|split; [|split]].
  - assert (Hrecorded :
      etherLockupRecorded Example.state "0xtx" Example.etherShort 1
        (Example.recorded Example.etherSwap "0xtx" 1)
        (Example.recordedState Example.etherSwap "0xtx" 1))
      by (exists Example.etherSwap; split_and!; reflexivity).
    assert (Hset :
      expectedAmountSet (Example.recorded Example.etherSwap "0xtx" 1) 2%Q)
      by (split; [reflexivity | discriminate]).
    assert (Hconverted : BigNumber.from 2%Q = Fulfilled 2) by reflexivity.
    assert (Hshort : amount Example.etherShort < 2 * 10 ^ 18) by reflexivity.
    refine (conj Hrecorded (conj Hset (conj Hconverted (conj Hshort _)))).
    exact (proj1 (proj2 (proj2 (proj1 (proj1 lockup_amount_sufficiency
                                         _ _ _ _ _ _ _
                                         Hrecorded eq_refl eq_refl Hset)
                                  _ Hconverted))
                    Hshort)).
  - assert (Hrecorded :
      etherLockupRecorded Example.state "0xtx" Example.etherEnough 2
        (Example.recorded Example.etherSwap "0xtx" 2)
        (Example.recordedState Example.etherSwap "0xtx" 2))
      by (exists Example.etherSwap; split_and!; reflexivity).
    assert (Hset :
      expectedAmountSet (Example.recorded Example.etherSwap "0xtx" 2) 2%Q)
      by (split; [reflexivity | discriminate]).
    assert (Hconverted : BigNumber.from 2%Q = Fulfilled 2) by reflexivity.
    assert (Henough : 2 * 10 ^ 18 ≤ amount Example.etherEnough)
      by discriminate.
    refine (conj Hrecorded (conj Henough _)).
    exact (proj1 (proj1 (proj2 (proj1 (proj1 lockup_amount_sufficiency
                                         _ _ _ _ _ _ _
                                         Hrecorded eq_refl eq_refl Hset)
                                  _ Hconverted)))
             Henough).
  - assert (Hrecorded :
      etherLockupRecorded MoreExamples.fractionState "0xtx"
        MoreExamples.fractionShort 0
        (Example.recorded MoreExamples.fractionSwap "0xtx" 0)
        MoreExamples.fractionRecorded)
      by (exists MoreExamples.fractionSwap; split_and!; reflexivity).
    assert (Hset :
      expectedAmountSet
        (Example.recorded MoreExamples.fractionSwap "0xtx" 0) 0.01%Q)
      by (split; [reflexivity | discriminate]).
    assert (Hfault : BigNumber.from 0.01%Q = Rejected "underflow")
      by reflexivity.
    refine (conj Hrecorded (conj Hfault _)).
    exact (proj2 (proj1 lockup_amount_sufficiency _ _ _ _ _ _ _
                    Hrecorded eq_refl eq_refl Hset)
             _ Hfault).
  - assert (Hrecorded :
      erc20LockupRecorded Example.state "0xtx" Example.tokenShort
        Example.tokenProvider 4
        (Example.recorded Example.tokenSwap "0xtx" 4)
        (Example.recordedState Example.tokenSwap "0xtx" 4)).
    { exists Example.tokenSwap. eexists. split_and!; reflexivity. }
    assert (Hset :
      expectedAmountSet (Example.recorded Example.tokenSwap "0xtx" 4) 5%Q)
      by (split; [reflexivity | discriminate]).
    assert (Hconverted :
      formatTokenAmount Example.tokenProvider 5%Q = Fulfilled (5 * 10 ^ 10))
      by reflexivity.
    assert (Hshort : amount Example.tokenShort < 5 * 10 ^ 10) by reflexivity.
    refine (conj Hrecorded (conj Hconverted (conj Hshort _))).
    exact (proj1 (proj2 (proj1 (proj2 lockup_amount_sufficiency
                                  _ _ _ _ _ _ _ _
                                  Hrecorded eq_refl eq_refl eq_refl Hset)
                           _ Hconverted)
                    Hshort)).
Defined.

(** C9, as stated, fails on a lockup of more coins than a number holds:
    the swap expects 0 and the addresses and the timelock are right, but
    the handler rejects on the conversion of the amount and emits no
    lockup event. *)
Lemma unsafe_amount_is_not_accepted :
  (SwapRepository.getSwap (lockupOptions MoreExamples.etherUnsafeNothing)
     Example.state).1
  = Fulfilled (Some Example.freeEtherSwap)
  ∧ Swap.expectedAmount Example.freeEtherSwap = Some 0%Q
  ∧ firstFailure
      (etherAddressChecks Example.freeEtherSwap
         MoreExamples.etherUnsafeNothing)
    = None
  ∧ listenEtherSwap_lockup "0xtx" MoreExamples.etherUnsafeNothing
      Example.state
    = (Rejected "overflow", Example.state)
  ∧ emitted Example.state = [].
Proof. split_and!; reflexivity. Qed.

Lemma lockup_falsy_expected_amount_accepted_witness :
  (etherLockupRecorded Example.state "0xtx" Example.etherNothing 0
     (Example.recorded Example.freeEtherSwap "0xtx" 0)
     (Example.recordedState Example.freeEtherSwap "0xtx" 0)
   ∧ Swap.expectedAmount (Example.recorded Example.freeEtherSwap "0xtx" 0)
     = Some 0%Q
   ∧ listenEtherSwap_lockup "0xtx" Example.etherNothing Example.state
     = (Fulfilled tt,
        with_emitted (Example.recordedState Example.freeEtherSwap "0xtx" 0)
          [eth_lockup (Example.recorded Example.freeEtherSwap "0xtx" 0)
             "0xtx" Example.etherNothing]))
  ∧ (erc20LockupRecorded Example.state "0xtx" Example.tokenNothing
       Example.tokenProvider 0
       (Example.recorded Example.freeTokenSwap "0xtx" 0)
       (Example.recordedState Example.freeTokenSwap "0xtx" 0)
     ∧ Swap.expectedAmount (Example.recorded Example.freeTokenSwap "0xtx" 0)
       = None
     ∧ listenERC20Swap_lockup "0xtx" Example.tokenNothing Example.state
       = (Fulfilled tt,
          with_emitted (Example.recordedState Example.freeTokenSwap "0xtx" 0)
            [erc20_lockup (Example.recorded Example.freeTokenSwap "0xtx" 0)
               "0xtx" Example.tokenNothing])).
Proof.
  split.
  - assert (Hrecorded :
      etherLockupRecorded Example.state "0xtx" Example.etherNothing 0
        (Example.recorded Example.freeEtherSwap "0xtx" 0)
        (Example.recordedState Example.freeEtherSwap "0xtx" 0))
      by (exists Example.freeEtherSwap; split_and!; reflexivity).
    refine (conj Hrecorded (conj eq_refl _)).
    exact (proj1 lockup_falsy_expected_amount_accepted _ _ _ _ _ _
             Hrecorded eq_refl eq_refl
             (or_intror (ex_intro _ 0%Q (conj eq_refl eq_refl)))).
  - assert (Hrecorded :
      erc20LockupRecorded Example.state "0xtx" Example.tokenNothing
        Example.tokenProvider 0
        (Example.recorded Example.freeTokenSwap "0xtx" 0)
        (Example.recordedState Example.freeTokenSwap "0xtx" 0)).
    { exists Example.freeTokenSwap. eexists. split_and!; reflexivity. }
    refine (conj Hrecorded (conj eq_refl _)).
    exact (proj2 lockup_falsy_expected_amount_accepted _ _ _ _ _ _ _
             Hrecorded eq_refl eq_refl eq_refl (or_introl eq_refl)).
Defined.


Lemma reverse_swap_expiry_skips_mempool_witness :
  ReverseSwapRepository.getReverseSwapsExpirable 1000 Example.state
  = (Fulfilled [Example.confirmed], Example.state)
  ∧ checkExpiredReverseSwaps 1000 Example.state
    = (Fulfilled tt,
       with_emitted Example.state
         [reverseSwap_expired Example.confirmed true]).
Proof.
  destruct (reverse_swap_expiry_skips_mempool Example.state 1000)
    as (expirable & Hfetched & _ & Hscan & _).
  assert (Hexpirable : expirable = [Example.confirmed]).
  { unfold ReverseSwapRepository.getReverseSwapsExpirable,
      ReverseSwapRepository.getReverseSwaps in Hfetched.
    by injection Hfetched as <-. }
  rewrite Hexpirable in Hfetched, Hscan.
  split; [exact Hfetched | exact Hscan].
Defined.

(** C5, as stated, fails for a watcher that holds a stale instance: the
    instance says [transaction.confirmed] already while the stored row
    is in [transaction.mempool].  When the confirmation succeeds nothing
    is written, so [lockup.confirmed] is emitted and the stored status is
    still [transaction.mempool]. *)
Lemma stale_watcher_leaves_stored_status :
  ∃ st1,
    listenContractTransaction_settled MoreExamples.staleConfirmed
      Example.lockupTransaction Example.state
    = (Fulfilled tt, st1)
    ∧ wait Example.lockupTransaction 1 = Fulfilled tt
    ∧ emitted st1 = [lockup_confirmed MoreExamples.staleConfirmed "0xl0ck"]
    ∧ reverseSwaps st1 !! 0%nat = Some Example.pending
    ∧ ReverseSwap.id Example.pending
      = ReverseSwap.id MoreExamples.staleConfirmed
    ∧ ReverseSwap.status Example.pending = TransactionMempool
    ∧ ReverseSwap.status Example.pending ≠ TransactionConfirmed.
Proof. eexists. split_and!; [reflexivity.. | discriminate]. Qed.

Lemma confirmation_watcher_settles_once_witness :
  (wait Example.lockupTransaction 1 = Fulfilled tt
   ∧ ∃ st1,
       statusSet Example.state Example.pending TransactionConfirmed
         (Example.withStatus Example.pending "transaction.confirmed") st1
       ∧ listenContractTransaction_settled Example.pending
           Example.lockupTransaction Example.state
         = (Fulfilled tt,
            with_emitted st1
              [lockup_confirmed
                 (Example.withStatus Example.pending "transaction.confirmed")
                 "0xl0ck"]))
  ∧ (wait Example.droppedTransaction 1 = Rejected "transaction was replaced"
     ∧ ∃ st1,
         statusSet Example.state Example.pending TransactionFailed
           (Example.withStatus Example.pending "transaction.failed") st1
         ∧ listenContractTransaction_settled Example.pending
             Example.droppedTransaction Example.state
           = (Fulfilled tt,
              with_emitted st1
                [lockup_failedToSend
                   (Example.withStatus Example.pending "transaction.failed")
                   "transaction was replaced"])).
Proof.
  split.
  - assert (Hwait : wait Example.lockupTransaction 1 = Fulfilled tt)
      by reflexivity.
    split; [exact Hwait|].
    destruct (proj1 (confirmation_watcher_settles_once Example.state
                       Example.pending Example.lockupTransaction) Hwait)
      as (updated & st1 & Hset & Hsettled).
    assert (Hupdated :
      updated = Example.withStatus Example.pending "transaction.confirmed")
      by (destruct Hset as [Hrun _]; by injection Hrun as <- _).
    rewrite Hupdated in Hset, Hsettled.
    exists st1. split; [exact Hset | exact Hsettled].
  - assert (Hwait :
      wait Example.droppedTransaction 1 = Rejected "transaction was replaced")
      by reflexivity.
    split; [exact Hwait|].
    destruct (proj1 (proj2 (confirmation_watcher_settles_once Example.state
                              Example.pending Example.droppedTransaction))
                _ Hwait)
      as (updated & st1 & Hset & Hsettled).
    assert (Hupdated :
      updated = Example.withStatus Example.pending "transaction.failed")
      by (destruct Hset as [Hrun _]; by injection Hrun as <- _).
    rewrite Hupdated in Hset, Hsettled.
    exists st1. split; [exact Hset | exact Hsettled].
Defined.

Lemma init_attaches_watchers_witness :
  init Example.state
  = (Fulfilled tt,
     with_watchers Example.state
       [(Example.pending, Example.lockupTransaction)])
  ∧ provider_getTransaction (ReverseSwap.transactionId Example.lost)
    = Rejected "transaction not found"
  ∧ walletManager_wallets !! sendingChain Example.elsewhere
    = Some {| Wallet.symbol := "BTC"; Wallet.type := BitcoinLike;
              Wallet.walletProvider := Example.tokenProvider |}.
Proof.
  destruct (init_attaches_watchers Example.state)
    as (mempoolReverseSwaps & Hfetched & _ & Hinit & _).
  assert (Hmempool :
    mempoolReverseSwaps = [Example.pending; Example.elsewhere; Example.lost]).
  { unfold ReverseSwapRepository.getReverseSwaps in Hfetched.
    by injection Hfetched as <-. }
  rewrite Hmempool in Hinit.
  split; [exact Hinit | split; reflexivity].
Defined.

(** C10, as stated, fails: on the path that sets [transaction.confirmed]
    the failure reason is omitted, and a reverse swap that has one stored
    still has it afterwards, in the instance and in its row. *)
Lemma omitted_failure_reason_is_kept :
  ∃ updated st1,
    ReverseSwapRepository.setReverseSwapStatus
      Example.pending TransactionConfirmed None Example.state
    = (Fulfilled updated, st1)
    ∧ ReverseSwap.failureReason Example.pending = Some "an earlier failure"
    ∧ ReverseSwap.failureReason updated = Some "an earlier failure"
    ∧ ReverseSwap.failureReason updated ≠ None
    ∧ ReverseSwap.failureReason <$> reverseSwaps st1 !! 0%nat
      = Some (Some "an earlier failure")
    ∧ ReverseSwap.status <$> reverseSwaps st1 !! 0%nat
      = Some TransactionConfirmed.
Proof.
  eexists _, _. split; [reflexivity|].
  split_and!;
    [reflexivity | reflexivity | discriminate | reflexivity | reflexivity].
Qed.

Lemma setReverseSwapStatus_keeps_omitted_reason_witness :
  statusNew Example.pending TransactionConfirmed None
  ∧ ∃ st1,
      ReverseSwapRepository.setReverseSwapStatus
        Example.pending TransactionConfirmed None Example.state
      = (Fulfilled
           (Example.withStatus Example.pending "transaction.confirmed"), st1)
      ∧ statusStored Example.state Example.pending TransactionConfirmed None
          st1
      ∧ ReverseSwap.failureReason
          (Example.withStatus Example.pending "transaction.confirmed")
        = Some "an earlier failure".
Proof.
  assert (Hnew : statusNew Example.pending TransactionConfirmed None)
    by (split; [discriminate | intros reason; discriminate]).
  split; [exact Hnew|].
  destruct (setReverseSwapStatus_keeps_omitted_reason Example.state
              Example.pending TransactionConfirmed None)
    as (updated & st1 & Hrun & _ & _ & Hstored & _ & Hkept).
  assert (Hupdated :
    updated = Example.withStatus Example.pending "transaction.confirmed")
    by (by injection Hrun as <- _).
  rewrite Hupdated in Hrun, Hkept.
  exists st1. split; [exact Hrun | split; [exact (Hstored Hnew)|]].
  exact (Hkept eq_refl).
Defined.

(** * Further properties *)

Section MoreProperties.
Context `{!Environment}.

Import SwapUpdateEvent.

Implicit Types (st : State) (reverseSwap : ReverseSwap.t).

(** *** What an update leaves in the table *)

Lemma update_changed reverseSwap (v : ReverseSwap.values) st updated st1 :
  ReverseSwapRepository.update reverseSwap v st = (Fulfilled updated, st1) →
  ReverseSwap.set reverseSwap v ≠ reverseSwap →
  updated = ReverseSwap.set reverseSwap v
  ∧ st1
    = with_reverseSwaps st
        ((λ row,
            if decide (ReverseSwap.id row = ReverseSwap.id reverseSwap)
            then ReverseSwap.set row v else row) <$> reverseSwaps st).
Proof.
  rewrite update_run. intros [= <- <-] Hchanged. by rewrite decide_False.
Qed.

Lemma update_status reverseSwap (v : ReverseSwap.values) st updated st1
    (status : string) :
  ReverseSwapRepository.update reverseSwap v st = (Fulfilled updated, st1) →
  ReverseSwap.v_status v = Some status →
  ReverseSwap.status reverseSwap ≠ status →
  ∀ row, row ∈ reverseSwaps st1 →
    ReverseSwap.id row = ReverseSwap.id reverseSwap →
    ReverseSwap.status row = status.
Proof.
  intros Hrun Hstatus Hnew row Hrow Hid.
  apply update_changed in Hrun as [_ ->].
  - simpl in Hrow. apply list_elem_of_fmap in Hrow as (old & -> & _).
    case_decide as Hold; [simpl; by rewrite Hstatus | by destruct Hold].
  - intros Hsame. apply Hnew. rewrite <- Hsame at 1. simpl.
    by rewrite Hstatus.
Qed.

Lemma update_origin reverseSwap (v : ReverseSwap.values) st updated st1 :
  ReverseSwapRepository.update reverseSwap v st = (Fulfilled updated, st1) →
  ∀ row, row ∈ reverseSwaps st1 →
    ∃ old, old ∈ reverseSwaps st
      ∧ ReverseSwap.id row = ReverseSwap.id old
      ∧ ReverseSwap.preimageHash row = ReverseSwap.preimageHash old.
Proof.
  rewrite update_run. intros [= _ <-] row Hrow. case_decide.
  - by exists row.
  - simpl in Hrow. apply list_elem_of_fmap in Hrow as (old & -> & Hold).
    exists old. by case_decide.
Qed.

(** *** The scans and the recovery, as functions of the table *)

Lemma scan_run (height : Z) st :
  checkExpiredReverseSwaps height st
  = (Fulfilled tt,
     with_emitted st
       (emitted st ++ expiredEvents (expirableRows height (reverseSwaps st)))).
Proof.
  unfold checkExpiredReverseSwaps, and_then.
  unfold ReverseSwapRepository.getReverseSwapsExpirable,
    ReverseSwapRepository.getReverseSwaps.
  apply expiry_loop.
Qed.

Lemma init_run st :
  init st
  = (Fulfilled tt,
     with_watchers st
       (watchers st ++ attached (mempoolRows (reverseSwaps st)))).
Proof.
  unfold init, and_then. unfold ReverseSwapRepository.getReverseSwaps.
  apply init_loop.
Qed.

Lemma expired_event_row (height : Z) (rows : list ReverseSwap.t)
    reverseSwap (isEtherSwap : bool) :
  reverseSwap_expired reverseSwap isEtherSwap
    ∈ expiredEvents (expirableRows height rows) →
  reverseSwap ∈ rows
  ∧ (ReverseSwap.status reverseSwap ∉
       [SwapExpired; TransactionFailed; TransactionRefunded;
        InvoiceSettled; TransactionMempool])
  ∧ ReverseSwap.timeoutBlockHeight reverseSwap ≤ height.
Proof.
  unfold expiredEvents, expirableRows. intros Hevent.
  apply list_elem_of_omap in Hevent as (row & Hrow & Hsome).
  destruct (getEthereumWallet (sendingChain row)); simplify_eq.
  apply list_elem_of_filter in Hrow. tauto.
Qed.

Lemma scan_skips_status st reverseSwap (status : string) :
  status ∈ [SwapExpired; TransactionFailed; TransactionRefunded;
            InvoiceSettled; TransactionMempool] →
  (∀ row, row ∈ reverseSwaps st →
     ReverseSwap.id row = ReverseSwap.id reverseSwap →
     ReverseSwap.status row = status) →
  ∀ height : Z,
    ∃ new,
      checkExpiredReverseSwaps height st
      = (Fulfilled tt, with_emitted st (emitted st ++ new))
      ∧ ∀ row isEtherSwap,
          reverseSwap_expired row isEtherSwap ∈ new →
          ReverseSwap.id row ≠ ReverseSwap.id reverseSwap.
Proof.
  intros Hexcluded Hrows height. eexists. split; [apply scan_run|].
  intros row isEtherSwap Hevent Hid.
  apply expired_event_row in Hevent as (Hrow & Hstatus & _).
  apply Hstatus. by rewrite (Hrows row Hrow Hid).
Qed.

(** X1.  Once [setLockupTransaction] has recorded the lockup of a reverse
    swap, through an instance that was not in [transaction.mempool] and
    did not name the transaction before, [init] attaches a confirmation
    watcher to every row of that reverse swap whose sending chain has an
    Ethereum wallet, provided the provider returns the recorded
    transaction; and at no height does the expiry scan emit
    [reverseSwap.expired] for it. *)
Theorem sent_lockup_recovered_never_expired st reverseSwap
    (transactionId : string) (minerFee : Z) (vout : option Z) updated st1 :
  ReverseSwap.status reverseSwap ≠ TransactionMempool →
  ReverseSwap.transactionId reverseSwap ≠ Some transactionId →
  ReverseSwapRepository.setLockupTransaction
    reverseSwap transactionId minerFee vout st
  = (Fulfilled updated, st1) →
  (∃ added,
     init st1 = (Fulfilled tt, with_watchers st1 (watchers st1 ++ added))
     ∧ ∀ row transaction,
         row ∈ reverseSwaps st1 →
         ReverseSwap.id row = ReverseSwap.id reverseSwap →
         is_Some (getEthereumWallet (sendingChain row)) →
         provider_getTransaction (Some transactionId) = Fulfilled transaction →
         (row, transaction) ∈ added)
  ∧ ∀ height : Z,
      ∃ new,
        checkExpiredReverseSwaps height st1
        = (Fulfilled tt, with_emitted st1 (emitted st1 ++ new))
        ∧ ∀ row isEtherSwap,
            reverseSwap_expired row isEtherSwap ∈ new →
            ReverseSwap.id row ≠ ReverseSwap.id reverseSwap.
Proof.
  intros Hunsent Hunnamed Hsent.
  unfold ReverseSwapRepository.setLockupTransaction in Hsent.
  pose proof (update_status _ _ _ _ _ _ Hsent eq_refl Hunsent) as Hmempool.
  split.
  - eexists. split; [apply init_run|].
    intros row transaction Hrow Hid [wallet Hwallet] Hlookup.
    unfold attached. apply list_elem_of_omap. exists row. split.
    + apply list_elem_of_filter. split; [by apply Hmempool | done].
    + rewrite Hwallet.
      assert (Hrecorded : ReverseSwap.transactionId row = Some transactionId).
      { apply update_changed in Hsent as [_ ->].
        - simpl in Hrow. apply list_elem_of_fmap in Hrow as (old & -> & _).
          simpl in Hid. case_decide as Hold; [done|].
          by destruct Hold.
        - intros Hsame. apply Hunsent. by rewrite <- Hsame. }
      by rewrite Hrecorded, Hlookup.
  - apply (scan_skips_status _ _ TransactionMempool); [|done].
    compute_done.
Qed.

(** X2.  Once [setInvoiceSettled] has settled a reverse swap, through an
    instance that was not in [invoice.settled] before, a claim event whose
    preimage hash belongs to that reverse swap alone is ignored by both
    claim listeners, and at no height does the expiry scan emit
    [reverseSwap.expired] for it. *)
Theorem settled_reverse_swap_is_left_alone st reverseSwap
    (preimage : string) updated st1 :
  ReverseSwap.status reverseSwap ≠ InvoiceSettled →
  ReverseSwapRepository.setInvoiceSettled reverseSwap preimage st
  = (Fulfilled updated, st1) →
  (∀ (transactionHash : string) (preimageHash revealed : Buffer),
     (∀ row, row ∈ reverseSwaps st →
        ReverseSwap.preimageHash row = getHexString preimageHash →
        ReverseSwap.id row = ReverseSwap.id reverseSwap) →
     listenEtherSwap_claim transactionHash preimageHash revealed st1
       = (Fulfilled tt, st1)
     ∧ listenERC20Swap_claim transactionHash preimageHash revealed st1
       = (Fulfilled tt, st1))
  ∧ ∀ height : Z,
      ∃ new,
        checkExpiredReverseSwaps height st1
        = (Fulfilled tt, with_emitted st1 (emitted st1 ++ new))
        ∧ ∀ row isEtherSwap,
            reverseSwap_expired row isEtherSwap ∈ new →
            ReverseSwap.id row ≠ ReverseSwap.id reverseSwap.
Proof.
  intros Hunsettled Hsettled.
  unfold ReverseSwapRepository.setInvoiceSettled in Hsettled.
  pose proof (update_status _ _ _ _ _ _ Hsettled eq_refl Hunsettled)
    as Hstatus.
  split.
  - intros transactionHash preimageHash revealed Halone.
    assert (Hmiss :
      ∀ row, row ∈ reverseSwaps st1 → ¬ claimOptions preimageHash row).
    { intros row Hrow [Hhash Hopen]. apply Hopen, Hstatus; [done|].
      destruct (update_origin _ _ _ _ _ Hsettled row Hrow)
        as (old & Hold & Hid & Hsame).
      rewrite Hid. apply Halone; [done | congruence]. }
    unfold listenEtherSwap_claim, listenERC20Swap_claim, and_then.
    by rewrite (getReverseSwap_none _ _ Hmiss).
  - apply (scan_skips_status _ _ InvoiceSettled); [|done].
    compute_done.
Qed.

(** *** A settled watcher *)

Lemma settled_run reverseSwap (transaction : ContractTransaction) st st1 :
  listenContractTransaction_settled reverseSwap transaction st
  = (Fulfilled tt, st1) →
  ∃ (status : string) updated st0,
    ReverseSwapRepository.setReverseSwapStatus reverseSwap status None st
    = (Fulfilled updated, st0)
    ∧ reverseSwaps st1 = reverseSwaps st0
    ∧ watchers st1 = watchers st0
    ∧ emitted st1 = emitted st ++ [
        match wait transaction 1 with
        | Fulfilled _ => lockup_confirmed updated (hash transaction)
        | Rejected reason => lockup_failedToSend updated reason
        end]
    ∧ status = match wait transaction 1 with
               | Fulfilled _ => TransactionConfirmed
               | Rejected _ => TransactionFailed
               end.
Proof.
  unfold listenContractTransaction_settled, catch, and_then, settled.
  destruct (wait transaction 1) as [[]|reason]; simpl; intros [= <-].
  - exists TransactionConfirmed. eexists _, _. split; [reflexivity|].
    simpl. by case_decide.
  - exists TransactionFailed. eexists _, _. split; [reflexivity|].
    simpl. by case_decide.
Qed.

(** X3.  After the watcher of a reverse swap has settled, with an
    instance that was in [transaction.mempool] as [init] attaches it,
    [init] attaches no watcher to that reverse swap again.  If the wait
    was rejected, the expiry scan emits [reverseSwap.expired] for it at no
    height; if the wait was fulfilled, the scan emits it for a row of that
    reverse swap with an Ethereum wallet exactly at the heights from its
    timeout on. *)
Theorem settled_watcher_afterwards st reverseSwap
    (transaction : ContractTransaction) st1 :
  ReverseSwap.status reverseSwap = TransactionMempool →
  listenContractTransaction_settled reverseSwap transaction st
  = (Fulfilled tt, st1) →
  (∃ added,
     init st1 = (Fulfilled tt, with_watchers st1 (watchers st1 ++ added))
     ∧ ∀ row pending,
         (row, pending) ∈ added →
         ReverseSwap.id row ≠ ReverseSwap.id reverseSwap)
  ∧ ∀ height : Z,
      ∃ new,
        checkExpiredReverseSwaps height st1
        = (Fulfilled tt, with_emitted st1 (emitted st1 ++ new))
        ∧ ((∃ reason, wait transaction 1 = Rejected reason) →
           ∀ row isEtherSwap,
             reverseSwap_expired row isEtherSwap ∈ new →
             ReverseSwap.id row ≠ ReverseSwap.id reverseSwap)
        ∧ (wait transaction 1 = Fulfilled tt →
           ∀ row wallet,
             row ∈ reverseSwaps st1 →
             ReverseSwap.id row = ReverseSwap.id reverseSwap →
             getEthereumWallet (sendingChain row) = Some wallet →
             (reverseSwap_expired row
                (bool_decide (Wallet.symbol wallet = "RBTC")) ∈ new
              ↔ ReverseSwap.timeoutBlockHeight row ≤ height)).
Proof.
  intros Hmempool
    (status & updated & st0 & Hset & Hrows & _ & _ & Hstatus)%settled_run.
  unfold ReverseSwapRepository.setReverseSwapStatus in Hset.
  assert (Hnew : ReverseSwap.status reverseSwap ≠ status)
    by (rewrite Hmempool, Hstatus; by destruct (wait transaction 1)).
  pose proof (update_status _ _ _ _ _ _ Hset eq_refl Hnew) as Hwritten.
  rewrite <- Hrows in Hwritten.
  split.
  - eexists. split; [apply init_run|].
    intros row pending Hattached Hid. unfold attached in Hattached.
    apply list_elem_of_omap in Hattached as (found & Hfound & Hsome).
    destruct (getEthereumWallet (sendingChain found)); [|done].
    destruct (provider_getTransaction (ReverseSwap.transactionId found));
      simplify_eq.
    apply list_elem_of_filter in Hfound as [Hselected Hrow].
    rewrite (Hwritten row Hrow Hid) in Hselected.
    by destruct (wait transaction 1).
  - intros height. eexists. split; [apply scan_run|]. split.
    + intros [reason Hwait] row isEtherSwap Hevent Hid.
      apply expired_event_row in Hevent as (Hrow & Hexcluded & _).
      apply Hexcluded. rewrite (Hwritten row Hrow Hid), Hstatus, Hwait.
      compute_done.
    + intros Hwait row wallet Hrow Hid Hwallet. split.
      * intros Hevent. by apply expired_event_row in Hevent as (_ & _ & ?).
      * intros Htimeout. unfold expiredEvents, expirableRows.
        apply list_elem_of_omap. exists row. split; [|by rewrite Hwallet].
        apply list_elem_of_filter. split; [|done]. split; [|done].
        rewrite (Hwritten row Hrow Hid), Hstatus, Hwait.
        compute_done.
Qed.

(** *** The lockup listeners on another chain *)

(** X4.  When the first swap that a lockup event matches expects its
    lockup on another chain, the listener returns without a write and
    without an event: the native listener when that chain is not RBTC, the
    token listener when that chain has no wallet or a wallet that is not of
    type [ERC20]. *)
Theorem lockup_for_another_chain_is_ignored st (transactionHash : string)
    (values : EtherSwapValues) swap :
  (SwapRepository.getSwap (lockupOptions values) st).1
    = Fulfilled (Some swap) →
  (lockupChain swap ≠ "RBTC" →
   listenEtherSwap_lockup transactionHash values st = (Fulfilled tt, st))
  ∧ ((∀ wallet,
        walletManager_wallets !! lockupChain swap = Some wallet →
        Wallet.type wallet ≠ ERC20) →
     ∀ token,
       listenERC20Swap_lockup transactionHash
         {| etherSwapValues_of := values; tokenAddress := token |} st
       = (Fulfilled tt, st)).
Proof.
  intros Hfound. unfold SwapRepository.getSwap in Hfound. simpl in Hfound.
  injection Hfound as Hfound. split.
  - intros Hchain. unfold listenEtherSwap_lockup, and_then.
    unfold SwapRepository.getSwap. rewrite Hfound.
    change (getChainCurrency _ _ _ false) with (lockupChain swap).
    by rewrite decide_True.
  - intros Hwallet token. unfold listenERC20Swap_lockup, and_then.
    unfold SwapRepository.getSwap. cbn [etherSwapValues_of].
    rewrite Hfound.
    change (getChainCurrency _ _ _ false) with (lockupChain swap).
    destruct (walletManager_wallets !! lockupChain swap) as [wallet|]
      eqn:Hlookup; [|done].
    by rewrite decide_True by (by apply Hwallet).
Qed.

(** *** The scans *)

(** X5.  The expiry scan of the reverse swaps writes nothing, so a second
    scan sees the same table: at a height that is not lower it emits again
    every [reverseSwap.expired] event that the first scan emitted. *)
Theorem expiry_scan_reports_again st (first_height second_height : Z) :
  first_height ≤ second_height →
  ∃ first second,
    checkExpiredReverseSwaps first_height st
    = (Fulfilled tt, with_emitted st (emitted st ++ first))
    ∧ checkExpiredReverseSwaps second_height
        (with_emitted st (emitted st ++ first))
      = (Fulfilled tt, with_emitted st ((emitted st ++ first) ++ second))
    ∧ ∀ event, event ∈ first → event ∈ second.
Proof.
  intros Hle. eexists _, _. split; [apply scan_run|].
  split; [by rewrite scan_run|].
  intros event. unfold expiredEvents, expirableRows. simpl.
  rewrite !list_elem_of_omap. intros (row & Hrow & Hsome).
  exists row. split; [|done].
  apply list_elem_of_filter in Hrow as [[Hstatus Htimeout] Hin].
  apply list_elem_of_filter. split; [split; [done | lia] | done].
Qed.

Lemma swap_expiry_loop (expirable : list Swap.t) st :
  for_of expirable
    (λ expirableSwap,
       match getEthereumWallet (lockupChain expirableSwap) with
       | Some wallet =>
           emit (swap_expired expirableSwap
                   (bool_decide (Wallet.symbol wallet = "RBTC")))
       | None => resolve tt
       end) st
  = (Fulfilled tt,
     with_emitted st (emitted st ++ expiredSwapEvents expirable)).
Proof.
  revert st. induction expirable as [|first rest IH]; intros st.
  - simpl. by rewrite app_nil_r, with_emitted_same.
  - cbn [for_of]. unfold and_then at 1. cbv beta.
    unfold expiredSwapEvents. cbn [omap list_omap].
    destruct (getEthereumWallet (lockupChain first)) as [wallet|].
    + rewrite emit_run, IH. unfold expiredSwapEvents. simpl.
      by rewrite <- app_assoc.
    + unfold resolve. by rewrite IH.
Qed.

Lemma swap_scan_run (swapsExpirable : Z → list Swap.t → list Swap.t)
    (height : Z) st :
  checkExpiredSwaps swapsExpirable height st
  = (Fulfilled tt,
     with_emitted st
       (emitted st
        ++ expiredSwapEvents (swapsExpirable height (swaps st)))).
Proof.
  unfold checkExpiredSwaps, and_then, getSwapsExpirable.
  apply swap_expiry_loop.
Qed.

(** X6.  Whatever swaps [getSwapsExpirable] selects, the expiry scan of the
    swaps writes nothing and emits, in the order of the selection, one
    [swap.expired] event for each selected swap whose lockup chain has a
    wallet of type [Rbtc] or [ERC20], flagged as native exactly when the
    symbol of the wallet is RBTC; the other selected swaps are passed
    over. *)
Theorem swap_expiry_scan (swapsExpirable : Z → list Swap.t → list Swap.t)
    st (height : Z) :
  checkExpiredSwaps swapsExpirable height st
  = (Fulfilled tt,
     with_emitted st
       (emitted st ++ expiredSwapEvents (swapsExpirable height (swaps st))))
  ∧ ∀ event,
      event ∈ expiredSwapEvents (swapsExpirable height (swaps st))
      ↔ ∃ swap wallet,
          swap ∈ swapsExpirable height (swaps st)
          ∧ walletManager_wallets !! lockupChain swap = Some wallet
          ∧ (Wallet.type wallet = Rbtc ∨ Wallet.type wallet = ERC20)
          ∧ event
            = swap_expired swap (bool_decide (Wallet.symbol wallet = "RBTC")).
Proof.
  split; [apply swap_scan_run|].
  intros event. unfold expiredSwapEvents. rewrite list_elem_of_omap. split.
  - intros (swap & Hswap & Hsome).
    destruct (getEthereumWallet (lockupChain swap)) as [wallet|] eqn:Hwallet;
      simplify_eq.
    apply getEthereumWallet_Some in Hwallet as [Hlookup Htype].
    by exists swap, wallet.
  - intros (swap & wallet & Hswap & Hlookup & Htype & ->).
    exists swap. split; [done|].
    by rewrite (proj2 (getEthereumWallet_Some _ _) (conj Hlookup Htype)).
Qed.

(** X7.  On a block the two scans run in the order in which their queries
    return.  In either order the listener is fulfilled, leaves both tables
    and the watchers as they are, and emits the events of both scans; the
    two orders differ only in which scan's events come first. *)
Theorem block_scans_commute (swapsExpirable : Z → list Swap.t → list Swap.t)
    st (height : Z) :
  ∃ swapEvents reverseSwapEvents,
    checkExpiredSwaps swapsExpirable height st
    = (Fulfilled tt, with_emitted st (emitted st ++ swapEvents))
    ∧ checkExpiredReverseSwaps height st
      = (Fulfilled tt, with_emitted st (emitted st ++ reverseSwapEvents))
    ∧ listenBlocks_block swapsExpirable true height st
      = (Fulfilled tt,
         with_emitted st (emitted st ++ swapEvents ++ reverseSwapEvents))
    ∧ listenBlocks_block swapsExpirable false height st
      = (Fulfilled tt,
         with_emitted st (emitted st ++ reverseSwapEvents ++ swapEvents))
    ∧ emitted (listenBlocks_block swapsExpirable true height st).2
      ≡ₚ emitted (listenBlocks_block swapsExpirable false height st).2.
Proof.
  eexists _, _. split; [apply swap_scan_run|]. split; [apply scan_run|].
  assert (Hswaps_first :
    listenBlocks_block swapsExpirable true height st
    = (Fulfilled tt,
       with_emitted st
         (emitted st
          ++ expiredSwapEvents (swapsExpirable height (swaps st))
          ++ expiredEvents (expirableRows height (reverseSwaps st))))).
  { unfold listenBlocks_block, and_then. rewrite swap_scan_run, scan_run.
    simpl. by rewrite <- app_assoc. }
  assert (Hreverse_first :
    listenBlocks_block swapsExpirable false height st
    = (Fulfilled tt,
       with_emitted st
         (emitted st
          ++ expiredEvents (expirableRows height (reverseSwaps st))
          ++ expiredSwapEvents (swapsExpirable height (swaps st))))).
  { unfold listenBlocks_block, and_then. rewrite scan_run, swap_scan_run.
    simpl. by rewrite <- app_assoc. }
  split_and!; [done | done |].
  rewrite Hswaps_first, Hreverse_first. simpl.
  apply Permutation_app_head, Permutation_app_comm.
Qed.

(** *** Watchers that are attached twice, and instances that are old *)

(** X8.  [init] does not look at the watchers that are already attached:
    a second call attaches the same watchers once more, so that a reverse
    swap recovered twice is watched twice. *)
Theorem init_attaches_again st :
  ∃ added,
    init st = (Fulfilled tt, with_watchers st (watchers st ++ added))
    ∧ init (with_watchers st (watchers st ++ added))
      = (Fulfilled tt, with_watchers st ((watchers st ++ added) ++ added)).
Proof. eexists. split; [apply init_run | by rewrite init_run]. Qed.

(** X9.  A settled watcher writes the status only, and it emits the
    instance it was attached with.  When the raw transaction of the
    reverse swap was stored through another instance in between (one that
    did not hold that raw transaction), and the instance of the watcher
    was in [transaction.mempool], the row keeps the stored raw
    transaction next to the new status, while the emitted reverse swap
    still has the raw transaction of the old instance. *)
Theorem settled_watcher_emits_its_own_instance st reverseSwap other
    (rawTx : string) (transaction : ContractTransaction) stored st0 st1 :
  ReverseSwap.id other = ReverseSwap.id reverseSwap →
  ReverseSwap.rawTx other ≠ Some rawTx →
  ReverseSwap.status reverseSwap = TransactionMempool →
  ReverseSwapRepository.setReverseSwapRawTx other rawTx st
  = (Fulfilled stored, st0) →
  listenContractTransaction_settled reverseSwap transaction st0
  = (Fulfilled tt, st1) →
  ∃ (status : string) emittedReverseSwap,
    status = match wait transaction 1 with
             | Fulfilled _ => TransactionConfirmed
             | Rejected _ => TransactionFailed
             end
    ∧ emitted st1
      = emitted st ++ [
          match wait transaction 1 with
          | Fulfilled _ =>
              lockup_confirmed emittedReverseSwap (hash transaction)
          | Rejected reason => lockup_failedToSend emittedReverseSwap reason
          end]
    ∧ ReverseSwap.status emittedReverseSwap = status
    ∧ ReverseSwap.rawTx emittedReverseSwap = ReverseSwap.rawTx reverseSwap
    ∧ ∀ row, row ∈ reverseSwaps st1 →
        ReverseSwap.id row = ReverseSwap.id reverseSwap →
        ReverseSwap.status row = status
        ∧ ReverseSwap.rawTx row = Some rawTx.
Proof.
  intros Hid Hfresh Hmempool Hstored Hsettled.
  apply settled_run in Hsettled
    as (status & updated & st' & Hset & Hrows & _ & Hemitted & Hstatus).
  unfold ReverseSwapRepository.setReverseSwapRawTx in Hstored.
  unfold ReverseSwapRepository.setReverseSwapStatus in Hset.
  assert (Hnew : ReverseSwap.status reverseSwap ≠ status)
    by (rewrite Hmempool, Hstatus; by destruct (wait transaction 1)).
  pose proof (update_status _ _ _ _ _ _ Hset eq_refl Hnew) as Hwritten.
  apply update_changed in Hstored as [_ ->];
    [|intros Hsame; apply Hfresh; by rewrite <- Hsame].
  apply update_changed in Hset as [-> ->];
    [|intros Hsame; apply Hnew; by rewrite <- Hsame].
  exists status, (ReverseSwap.set reverseSwap
    {| ReverseSwap.v_status := Some status;
       ReverseSwap.v_failureReason := None;
       ReverseSwap.v_minerFee := None;
       ReverseSwap.v_transactionId := None;
       ReverseSwap.v_transactionVout := None;
       ReverseSwap.v_preimage := None;
       ReverseSwap.v_rawTx := None |}).
  split_and!; try done.
  intros row Hrow Hrowid. split; [apply Hwritten; [by rewrite <- Hrows|done]|].
  rewrite Hrows in Hrow. simpl in Hrow.
  apply list_elem_of_fmap in Hrow as (middle & -> & Hmiddle).
  apply list_elem_of_fmap in Hmiddle as (old & -> & _).
  rewrite Hid in *.
  repeat (case_decide; simpl in *); try done; congruence.
Qed.
End MoreProperties.

(** ** The key providers *)

Lemma JsMap_get_set {V} (key other : string) (value : V) (map : JsMap.t V) :
  JsMap.get other (JsMap.set key value map)
  = if decide (key = other) then Some value else JsMap.get other map.
Proof.
  induction map as [|[k v] rest IH]; simpl.
  - repeat case_decide; congruence.
  - repeat (case_decide; simpl); congruence.
Qed.

Lemma JsMap_keys_set {V} (key : string) (value : V) (map : JsMap.t V) :
  (JsMap.set key value map).*1
  = if decide (key ∈ map.*1) then map.*1 else map.*1 ++ [key].
Proof.
  induction map as [|[k v] rest IH].
  - destruct (decide (key ∈ (@nil (string * V)).*1)) as [Hin|_]; [|done].
    by apply elem_of_nil in Hin.
  - cbn [JsMap.set]. rewrite fmap_cons. cbn [fst].
    destruct (decide (k = key)) as [->|Hhead].
    + rewrite fmap_cons. cbn [fst].
      destruct (decide (key ∈ key :: rest.*1)) as [_|Hout]; [done|].
      destruct Hout. apply elem_of_cons. by left.
    + rewrite fmap_cons, IH. cbn [fst].
      destruct (decide (key ∈ rest.*1)) as [Hin|Hout];
        destruct (decide (key ∈ k :: rest.*1)) as [Hin'|Hout']; try done.
      * destruct Hout'. apply elem_of_cons. by right.
      * apply elem_of_cons in Hin' as [->|?]; tauto.
Qed.

Section KeyProviders.
Variable splitDerivationPath : string → string * list Z.

Lemma highest_fold (depth : Z) (infos : list WalletManager.KeyProviderType)
    (start : Z) :
  ∃ highest,
    foldl
      (λ highestIndex info,
         let split :=
           splitDerivationPath (WalletManager.derivationPath info) in
         let index := WalletManager.at_index split.2 (depth - 1) in
         match index with
         | Some index =>
             if decide (index > highestIndex) then index else highestIndex
         | None => highestIndex
         end)
      start infos
    = highest
    ∧ start ≤ highest
    ∧ (∀ info index,
         info ∈ infos →
         WalletManager.depthIndex splitDerivationPath depth info
           = Some index →
         index ≤ highest)
    ∧ (highest = start
       ∨ ∃ info,
           info ∈ infos
           ∧ WalletManager.depthIndex splitDerivationPath depth info
             = Some highest).
Proof.
  revert start. induction infos as [|first rest IH]; intros start.
  - exists start. split_and!; [done | lia | | by left].
    intros info index Hin. by apply elem_of_nil in Hin.
  - cbn [foldl]. cbv zeta.
    destruct (WalletManager.at_index
                (splitDerivationPath (WalletManager.derivationPath first)).2
                (depth - 1)) as [index|] eqn:Hindex.
    + destruct (decide (index > start)) as [Hhigher|Hlower].
      * destruct (IH index) as (highest & Hrun & Hle & Hbound & Hattained).
        exists highest. split_and!; [done | lia | |].
        -- intros info found [->|Hin]%elem_of_cons Hfound.
           ++ unfold WalletManager.depthIndex in Hfound. simplify_eq. lia.
           ++ by eapply Hbound.
        -- right. destruct Hattained as [->|(info & Hin & Hsome)].
           ++ exists first. split; [apply elem_of_cons; by left | done].
           ++ exists info. split; [apply elem_of_cons; by right | done].
      * destruct (IH start) as (highest & Hrun & Hle & Hbound & Hattained).
        exists highest. split_and!; [done | done | |].
        -- intros info found [->|Hin]%elem_of_cons Hfound.
           ++ unfold WalletManager.depthIndex in Hfound. simplify_eq. lia.
           ++ by eapply Hbound.
        -- destruct Hattained as [->|(info & Hin & Hsome)]; [by left|].
           right. exists info. split; [apply elem_of_cons; by right | done].
    + destruct (IH start) as (highest & Hrun & Hle & Hbound & Hattained).
      exists highest. split_and!; [done | done | |].
      * intros info found [->|Hin]%elem_of_cons Hfound.
        -- unfold WalletManager.depthIndex in Hfound. congruence.
        -- by eapply Hbound.
      * destruct Hattained as [->|(info & Hin & Hsome)]; [by left|].
        right. exists info. split; [apply elem_of_cons; by right | done].
Qed.

(** X10.  [getHighestDepthIndex] throws [INVALID_DEPTH_INDEX] for depth 0,
    whatever the map.  For any other depth it returns the greatest index
    that a path of the map has at that depth, or -1 when no path has an
    index above -1 there (an empty map, or paths that are too short); the
    index after the returned one is therefore used by no path of the
    map. *)
Theorem getHighestDepthIndex_highest
    (map : JsMap.t WalletManager.KeyProviderType) (depth : Z) :
  (depth = 0 →
   WalletManager.getHighestDepthIndex splitDerivationPath map depth
   = WalletManager.Throws (WalletManager.INVALID_DEPTH_INDEX 0))
  ∧ (depth ≠ 0 →
     ∃ highest,
       WalletManager.getHighestDepthIndex splitDerivationPath map depth
       = WalletManager.Returns highest
       ∧ -1 ≤ highest
       ∧ (∀ info index,
            info ∈ JsMap.values map →
            WalletManager.depthIndex splitDerivationPath depth info
              = Some index →
            index ≤ highest)
       ∧ (highest = -1
          ∨ ∃ info,
              info ∈ JsMap.values map
              ∧ WalletManager.depthIndex splitDerivationPath depth info
                = Some highest)
       ∧ ∀ info,
           info ∈ JsMap.values map →
           WalletManager.depthIndex splitDerivationPath depth info
           ≠ Some (highest + 1)).
Proof.
  unfold WalletManager.getHighestDepthIndex. split.
  - intros ->. by rewrite decide_True.
  - intros Hdepth. rewrite decide_False by done.
    destruct (highest_fold depth (JsMap.values map) (-1))
      as (highest & Hrun & Hle & Hbound & Hattained).
    exists highest. split; [f_equal; exact Hrun|].
    split_and!; try done.
    intros info Hin Hnext. specialize (Hbound _ _ Hin Hnext). lia.
Qed.

(** X11.  The index that [getHighestDepthIndex] returns does not depend on
    the order in which the entries were put into the map. *)
Theorem getHighestDepthIndex_any_order
    (first second : JsMap.t WalletManager.KeyProviderType) (depth : Z) :
  first ≡ₚ second →
  WalletManager.getHighestDepthIndex splitDerivationPath first depth
  = WalletManager.getHighestDepthIndex splitDerivationPath second depth.
Proof.
  intros Hsame. unfold WalletManager.getHighestDepthIndex.
  case_decide; [done|]. f_equal.
  assert (Hvalues : ∀ info,
    info ∈ JsMap.values first ↔ info ∈ JsMap.values second).
  { intros info. unfold JsMap.values. by rewrite Hsame. }
  destruct (highest_fold depth (JsMap.values first) (-1))
    as (high1 & Hrun1 & Hle1 & Hbound1 & Hattained1).
  destruct (highest_fold depth (JsMap.values second) (-1))
    as (high2 & Hrun2 & Hle2 & Hbound2 & Hattained2).
  etrans; [exact Hrun1|]. etrans; [|symmetry; exact Hrun2].
  assert (high1 ≤ high2).
  { destruct Hattained1 as [->|(info & Hin & Hsome)]; [done|].
    apply (Hbound2 info); [by apply Hvalues | done]. }
  assert (high2 ≤ high1).
  { destruct Hattained2 as [->|(info & Hin & Hsome)]; [done|].
    apply (Hbound1 info); [by apply Hvalues | done]. }
  lia.
Qed.
End KeyProviders.

Lemma getKeyProviderMap_snoc
    (keyProviders : list WalletManager.KeyProviderType)
    (last : WalletManager.KeyProviderType) :
  WalletManager.getKeyProviderMap (keyProviders ++ [last])
  = JsMap.set (WalletManager.symbol last) last
      (WalletManager.getKeyProviderMap keyProviders).
Proof.
  unfold WalletManager.getKeyProviderMap. rewrite foldl_snoc. by destruct last.
Qed.

(** X12.  The map that [getKeyProviderMap] builds has one entry for each
    symbol among the rows of the repository, and the entry of a symbol is
    the last row with that symbol: an earlier row of the same symbol is
    overwritten. *)
Theorem getKeyProviderMap_keeps_last_row
    (keyProviders : list WalletManager.KeyProviderType) :
  NoDup (WalletManager.getKeyProviderMap keyProviders).*1
  ∧ ∀ symbol : string,
      JsMap.get symbol (WalletManager.getKeyProviderMap keyProviders)
      = last (filter (λ row, WalletManager.symbol row = symbol) keyProviders).
Proof.
  induction keyProviders as [|row rows [IHkeys IHget]] using rev_ind.
  - split; [apply NoDup_nil_2 | done].
  - rewrite getKeyProviderMap_snoc. split.
    + rewrite JsMap_keys_set. case_decide as Hold; [done|].
      apply NoDup_app. split_and!; [done | | apply NoDup_singleton].
      intros key Hkey ->%list_elem_of_singleton. by apply Hold.
    + intros symbol. rewrite JsMap_get_set, filter_app, IHget.
      rewrite filter_cons, filter_nil.
      case_decide as Hsymbol.
      * by rewrite last_snoc.
      * by rewrite app_nil_r.
Qed.

(** * The further properties on concrete data *)

Lemma sent_lockup_recovered_never_expired_witness :
  ∃ updated st1,
    ReverseSwapRepository.setLockupTransaction
      Example.confirmed "0xl0ck" 30 None Example.state
    = (Fulfilled updated, st1)
    ∧ (∃ added,
         init st1 = (Fulfilled tt, with_watchers st1 (watchers st1 ++ added))
         ∧ (updated, Example.lockupTransaction) ∈ added)
    ∧ ∃ new,
        checkExpiredReverseSwaps 1000 st1
        = (Fulfilled tt, with_emitted st1 (emitted st1 ++ new))
        ∧ ∀ row isEtherSwap,
            reverseSwap_expired row isEtherSwap ∈ new →
            ReverseSwap.id row ≠ "r4".
Proof.
  eexists _, _. split; [reflexivity|].
  assert (Hunsent : ReverseSwap.status Example.confirmed ≠ TransactionMempool)
    by discriminate.
  assert (Hunnamed :
    ReverseSwap.transactionId Example.confirmed ≠ Some "0xl0ck")
    by discriminate.
  destruct (sent_lockup_recovered_never_expired Example.state
              Example.confirmed "0xl0ck" 30 None _ _ Hunsent Hunnamed eq_refl)
    as [(added & Hinit & Hadded) Hscan].
  split; [|exact (Hscan 1000)].
  exists added. split; [exact Hinit|].
  apply Hadded; [|reflexivity | by eexists | reflexivity].
  simpl. do 3 apply list_elem_of_further. apply list_elem_of_here.
Defined.

Lemma settled_reverse_swap_is_left_alone_witness :
  ∃ updated st1,
    ReverseSwapRepository.setInvoiceSettled
      Example.confirmed "707265" Example.state
    = (Fulfilled updated, st1)
    ∧ (∀ row, row ∈ reverseSwaps Example.state →
         ReverseSwap.preimageHash row = getHexString [x44; x44] →
         ReverseSwap.id row = ReverseSwap.id Example.confirmed)
    ∧ listenEtherSwap_claim "0xc1a1m" [x44; x44] [x70; x72; x65] st1
      = (Fulfilled tt, st1)
    ∧ listenERC20Swap_claim "0xc1a1m" [x44; x44] [x70; x72; x65] st1
      = (Fulfilled tt, st1).
Proof.
  eexists _, _. split; [reflexivity|].
  assert (Halone :
    ∀ row, row ∈ reverseSwaps Example.state →
      ReverseSwap.preimageHash row = getHexString [x44; x44] →
      ReverseSwap.id row = ReverseSwap.id Example.confirmed).
  { intros row Hrow Hhash. simpl in Hrow. vm_compute in Hhash.
    repeat (apply elem_of_cons in Hrow as [-> | Hrow];
            [first [reflexivity | discriminate Hhash]|]).
    by apply elem_of_nil in Hrow. }
  split; [exact Halone|].
  assert (Hunsettled : ReverseSwap.status Example.confirmed ≠ InvoiceSettled)
    by discriminate.
  exact (proj1 (settled_reverse_swap_is_left_alone Example.state
                  Example.confirmed "707265" _ _ Hunsettled eq_refl)
           "0xc1a1m" [x44; x44] [x70; x72; x65] Halone).
Defined.

Lemma settled_watcher_afterwards_witness :
  ∃ st1,
    listenContractTransaction_settled Example.pending
      Example.lockupTransaction Example.state
    = (Fulfilled tt, st1)
    ∧ wait Example.lockupTransaction 1 = Fulfilled tt
    ∧ (∃ added,
         init st1 = (Fulfilled tt, with_watchers st1 (watchers st1 ++ added))
         ∧ ∀ row pending,
             (row, pending) ∈ added → ReverseSwap.id row ≠ "r1")
    ∧ ∃ new,
        checkExpiredReverseSwaps 900 st1
        = (Fulfilled tt, with_emitted st1 (emitted st1 ++ new))
        ∧ reverseSwap_expired
            (Example.withStatus Example.pending "transaction.confirmed") true
          ∈ new.
Proof.
  eexists. split; [reflexivity|]. split; [reflexivity|].
  destruct (settled_watcher_afterwards Example.state Example.pending
              Example.lockupTransaction _ eq_refl eq_refl) as [Hinit Hscan].
  split; [exact Hinit|].
  destruct (Hscan 900) as (new & Hrun & _ & Hconfirmed).
  exists new. split; [exact Hrun|].
  apply (Hconfirmed eq_refl
           (Example.withStatus Example.pending "transaction.confirmed")
           {| Wallet.symbol := "RBTC"; Wallet.type := Rbtc;
              Wallet.walletProvider := Example.tokenProvider |});
    [apply list_elem_of_here | reflexivity | reflexivity | done].
Defined.

Lemma lockup_for_another_chain_is_ignored_witness :
  (SwapRepository.getSwap (lockupOptions MoreExamples.foreignValues)
     MoreExamples.foreignState).1
  = Fulfilled (Some MoreExamples.foreignSwap)
  ∧ lockupChain MoreExamples.foreignSwap = "DOC"
  ∧ walletManager_wallets !! "DOC" = None
  ∧ listenEtherSwap_lockup "0xtx" MoreExamples.foreignValues
      MoreExamples.foreignState
    = (Fulfilled tt, MoreExamples.foreignState)
  ∧ listenERC20Swap_lockup "0xtx"
      {| etherSwapValues_of := MoreExamples.foreignValues;
         tokenAddress := "0xT0KEN" |} MoreExamples.foreignState
    = (Fulfilled tt, MoreExamples.foreignState).
Proof.
  assert (Hfound :
    (SwapRepository.getSwap (lockupOptions MoreExamples.foreignValues)
       MoreExamples.foreignState).1
    = Fulfilled (Some MoreExamples.foreignSwap)) by reflexivity.
  destruct (lockup_for_another_chain_is_ignored MoreExamples.foreignState
              "0xtx" MoreExamples.foreignValues _ Hfound)
    as [Hether Htoken].
  refine (conj Hfound (conj eq_refl (conj eq_refl (conj _ _)))).
  - apply Hether. discriminate.
  - apply Htoken. intros wallet Hwallet. discriminate Hwallet.
Defined.

Lemma expiry_scan_reports_again_witness :
  ∃ first second,
    checkExpiredReverseSwaps 900 Example.state
    = (Fulfilled tt,
       with_emitted Example.state (emitted Example.state ++ first))
    ∧ checkExpiredReverseSwaps 901
        (with_emitted Example.state (emitted Example.state ++ first))
      = (Fulfilled tt,
         with_emitted Example.state
           ((emitted Example.state ++ first) ++ second))
    ∧ ∀ event, event ∈ first → event ∈ second.
Proof.
  apply (expiry_scan_reports_again Example.state 900 901). discriminate.
Defined.

Lemma swap_expiry_scan_witness :
  checkExpiredSwaps MoreExamples.pastTimeout 1000 Example.state
  = (Fulfilled tt,
     with_emitted Example.state
       [swap_expired Example.etherSwap true;
        swap_expired Example.freeEtherSwap true;
        swap_expired Example.lockedSwap true]).
Proof.
  exact (proj1 (swap_expiry_scan MoreExamples.pastTimeout Example.state 1000)).
Defined.

Lemma block_scans_commute_witness :
  listenBlocks_block MoreExamples.pastTimeout true 1000 Example.state
  = (Fulfilled tt,
     with_emitted Example.state
       [swap_expired Example.etherSwap true;
        swap_expired Example.freeEtherSwap true;
        swap_expired Example.lockedSwap true;
        reverseSwap_expired Example.confirmed true])
  ∧ listenBlocks_block MoreExamples.pastTimeout false 1000 Example.state
    = (Fulfilled tt,
       with_emitted Example.state
         [reverseSwap_expired Example.confirmed true;
          swap_expired Example.etherSwap true;
          swap_expired Example.freeEtherSwap true;
          swap_expired Example.lockedSwap true]).
Proof.
  destruct (block_scans_commute MoreExamples.pastTimeout Example.state 1000)
    as (swapEvents & reverseSwapEvents & Hswaps & Hreverse & Hfirst & Hsecond
        & _).
  assert (HswapEvents :
    swapEvents
    = [swap_expired Example.etherSwap true;
       swap_expired Example.freeEtherSwap true;
       swap_expired Example.lockedSwap true]).
  { injection Hswaps as Hevents. exact (eq_sym Hevents). }
  assert (HreverseEvents :
    reverseSwapEvents = [reverseSwap_expired Example.confirmed true]).
  { injection Hreverse as Hevents. exact (eq_sym Hevents). }
  rewrite HswapEvents, HreverseEvents in Hfirst, Hsecond.
  split; [exact Hfirst | exact Hsecond].
Defined.

Lemma init_attaches_again_witness :
  ∃ added,
    init Example.state
    = (Fulfilled tt,
       with_watchers Example.state (watchers Example.state ++ added))
    ∧ init (with_watchers Example.state (watchers Example.state ++ added))
      = (Fulfilled tt,
         with_watchers Example.state
           ((watchers Example.state ++ added) ++ added)).
Proof. exact (init_attaches_again Example.state). Defined.

Lemma settled_watcher_emits_its_own_instance_witness :
  ∃ stored st0 st1,
    ReverseSwapRepository.setReverseSwapRawTx
      Example.pending "0200000001" Example.state
    = (Fulfilled stored, st0)
    ∧ listenContractTransaction_settled Example.pending
        Example.lockupTransaction st0
      = (Fulfilled tt, st1)
    ∧ ∃ emittedReverseSwap,
        emitted st1 = [lockup_confirmed emittedReverseSwap "0xl0ck"]
        ∧ ReverseSwap.rawTx emittedReverseSwap = Some "02000000"
        ∧ ∀ row, row ∈ reverseSwaps st1 →
            ReverseSwap.id row = "r1" →
            ReverseSwap.status row = "transaction.confirmed"
            ∧ ReverseSwap.rawTx row = Some "0200000001".
Proof.
  eexists _, _, _. split; [reflexivity|]. split; [reflexivity|].
  assert (Hfresh : ReverseSwap.rawTx Example.pending ≠ Some "0200000001")
    by discriminate.
  destruct (settled_watcher_emits_its_own_instance Example.state
              Example.pending Example.pending "0200000001"
              Example.lockupTransaction _ _ _ eq_refl Hfresh eq_refl
              eq_refl eq_refl)
    as (status & emittedReverseSwap & -> & Hemitted & _ & Hraw & Hrows).
  exists emittedReverseSwap. split; [exact Hemitted|].
  split; [exact Hraw | exact Hrows].
Defined.

Lemma getHighestDepthIndex_highest_witness :
  WalletManager.getHighestDepthIndex MoreExamples.splitPath
    (WalletManager.getKeyProviderMap MoreExamples.keyProviders) 0
  = WalletManager.Throws (WalletManager.INVALID_DEPTH_INDEX 0)
  ∧ ∃ highest,
      WalletManager.getHighestDepthIndex MoreExamples.splitPath
        (WalletManager.getKeyProviderMap MoreExamples.keyProviders) 2
      = WalletManager.Returns highest
      ∧ ∀ info,
          info ∈ JsMap.values
                   (WalletManager.getKeyProviderMap MoreExamples.keyProviders) →
          WalletManager.depthIndex MoreExamples.splitPath 2 info
          ≠ Some (highest + 1).
Proof.
  destruct (getHighestDepthIndex_highest MoreExamples.splitPath
              (WalletManager.getKeyProviderMap MoreExamples.keyProviders) 0)
    as [Hthrows _].
  destruct (getHighestDepthIndex_highest MoreExamples.splitPath
              (WalletManager.getKeyProviderMap MoreExamples.keyProviders) 2)
    as [_ Hreturns].
  split; [exact (Hthrows eq_refl)|].
  destruct Hreturns as (highest & Hrun & _ & _ & _ & Hfresh); [discriminate|].
  exists highest. split; [exact Hrun | exact Hfresh].
Defined.

Lemma getHighestDepthIndex_any_order_witness :
  WalletManager.getHighestDepthIndex MoreExamples.splitPath
    (WalletManager.getKeyProviderMap MoreExamples.keyProviders) 2
  = WalletManager.getHighestDepthIndex MoreExamples.splitPath
      (reverse (WalletManager.getKeyProviderMap MoreExamples.keyProviders)) 2.
Proof.
  apply getHighestDepthIndex_any_order. symmetry. apply reverse_Permutation.
Defined.

Lemma getKeyProviderMap_keeps_last_row_witness :
  JsMap.get "BTC" (WalletManager.getKeyProviderMap MoreExamples.keyProviders)
  = Some (MoreExamples.keyProvider "BTC" "m/0/1" 9)
  ∧ JsMap.get "ETH" (WalletManager.getKeyProviderMap MoreExamples.keyProviders)
    = None.
Proof.
  destruct (getKeyProviderMap_keeps_last_row MoreExamples.keyProviders)
    as [_ Hget].
  split; [exact (Hget "BTC") | exact (Hget "ETH")].
Defined.
